(** * wbplot.utils.images: a shallow embedding and its properties

    The development follows [wbplot/utils/images.py].  Scalars are IEEE
    binary64 numbers (Python's [float], NumPy's [float64]); one-dimensional
    arrays are lists; an RGBA array is a list of rows together with its
    dtype; Python exceptions are an error result; the [Cifti] object, the
    store of array buffers and the file system are explicit states. *)

From Stdlib Require Import PrimFloat SpecFloat FloatOps FloatAxioms.
From stdpp Require Import gmap strings list pretty.

(* Decimal literals such as 0.2 denote the nearest binary64 number, as they
   do in Python. *)
#[local] Set Warnings "-inexact-float".

(** ** Python: exceptions, results, strings and paths *)

Module Py.

(** The exceptions that [images.py] raises itself or receives from the
    library calls it makes. *)
Inductive exn : Set :=
| ValueError
| RuntimeError
| IndexError
| FileNotFoundError
| ParseError.

(** The outcome of a call: a returned value or a raised exception. *)
Inductive res (A : Type) : Type :=
| Ok (a : A)
| Raise (e : exn).
Global Arguments Ok {A} a.
Global Arguments Raise {A} e.

Definition bind {A B} (r : res A) (k : A → res B) : res B :=
  match r with
  | Ok a => k a
  | Raise e => Raise e
  end.

(** [l[i]] for a non-negative index. *)
Definition getitem {A} (l : list A) (i : nat) : res A :=
  match l !! i with
  | Some x => Ok x
  | None => Raise IndexError
  end.

(** [s[-n:]]: the last [n] characters, the whole string when it is
    shorter. *)
Definition last_chars (n : nat) (s : string) : string :=
  String.substring (String.length s - n) n s.

Definition startswith (p s : string) : bool := String.prefix p s.

Definition endswith (p s : string) : bool :=
  bool_decide (last_chars (String.length p) s = p).

(** [os.path.join(a, b)] on a POSIX system: an absolute second component
    discards the first. *)
Definition join (a b : string) : string :=
  if startswith "/" b then b
  else if bool_decide (a = "") || endswith "/" a then a +:+ b
  else a +:+ "/" +:+ b.

(** A number as a color function returns it for one channel: a [float], or
    an [int] that fits in 64 bits, which is what NumPy stores with the dtype
    [int64]. *)
Inductive num : Set :=
| Float (x : float)
| Int (n : Z) (fits : bool_decide (- 2 ^ 63 ≤ n < 2 ^ 63)%Z).

End Py.

Import Py.

(** [res] is a monad: [x ← r; k] runs [k] when [r] returned and passes the
    exception on otherwise. *)
#[global] Instance res_ret : MRet res := @Ok.
#[global] Instance res_bind : MBind res := λ A B k r, Py.bind r k.

(** A computation on a mutable state [S] that may raise: the state reached
    is kept when it raises, as in-place mutation is not undone by an
    exception. *)
Definition M (S A : Type) : Type := S → res A * S.

Definition ret_M {S A} (a : A) : M S A := λ s, (Ok a, s).

Definition bind_M {S A B} (m : M S A) (k : A → M S B) : M S B :=
  λ s, match m s with
       | (Ok a, s') => k a s'
       | (Raise e, s') => (Raise e, s')
       end.

Definition lift {S A} (r : res A) : M S A := λ s, (r, s).
Definition get_M {S} : M S S := λ s, (Ok s, s).
Definition modify {S} (f : S → S) : M S unit := λ s, (Ok (), f s).

Notation "'do' x <- m ; k" := (bind_M m (λ x, k))
  (at level 10, x name, m at level 100, k at level 200, only parsing).
Notation "'do_' m ; k" := (bind_M m (λ _, k))
  (at level 10, m at level 100, k at level 200, only parsing).

(** [for ii in l: body(ii)]. *)
Fixpoint for_ {S} (l : list nat) (body : nat → M S unit) : M S unit :=
  match l with
  | [] => ret_M ()
  | ii :: l' => do_ body ii; for_ l' body
  end.

(** [range(lo, hi)]. *)
Definition range (lo hi : nat) : list nat := seq lo (hi - lo).

(** ** NumPy: arrays of binary64 numbers *)

Module Np.

Definition loc := positive.

(** An [ndarray] object: its shape and the buffer it views.  Two arrays
    on one buffer share their elements. *)
Record ndarray : Set := Ndarray { shape : list N; buffer : loc }.

(** The buffers, each holding its elements in row-major order. *)
Abbreviation store := (gmap loc (list float)).

Definition ndim (a : ndarray) : N := N.of_nat (length (shape a)).
Definition size_of (shp : list N) : N := foldr N.mul 1%N shp.
Definition size (a : ndarray) : N := size_of (shape a).

(** [np.array(values)] and [np.copy(a)]: a new array on a new buffer. *)
Definition array (shp : list N) (values : list float) (σ : store)
  : ndarray * store :=
  let l := fresh (dom σ) in (Ndarray shp l, <[l := values]> σ).

Definition copy (a : ndarray) (σ : store) : res ndarray * store :=
  match σ !! buffer a with
  | Some values => let '(b, σ') := array (shape a) values σ in (Ok b, σ')
  | None => (Raise RuntimeError, σ)
  end.

(** [a.reshape(shp)]: a view of the same buffer; the sizes must agree. *)
Definition reshape (a : ndarray) (shp : list N) : res ndarray :=
  if decide (size_of shp = size a) then Ok (Ndarray shp (buffer a))
  else Raise ValueError.

(** One-dimensional arrays by value. *)
Definition zeros (n : nat) : list float := replicate n 0%float.
Definition ones (n : nat) : list float := replicate n 1%float.

(** [a[lo:hi] = v] on one-dimensional arrays, for [lo ≤ hi ≤ len(a)].  The
    value must have as many elements as the slice, or exactly one element,
    which is then broadcast over the slice; any other length is a
    [ValueError] (could not broadcast input array). *)
Definition setslice (a : list float) (lo hi : nat) (v : list float)
  : res (list float) :=
  if decide (length v = hi - lo) then Ok (take lo a ++ v ++ drop hi a)
  else match v with
       | [x] => Ok (take lo a ++ replicate (hi - lo) x ++ drop hi a)
       | _ => Raise ValueError
       end.

(** [a == x]: the element-wise comparison ([-0.0 == 0.0], [nan != nan]). *)
Definition eq_scalar (a : list float) (x : float) : list bool :=
  (λ y, PrimFloat.eqb y x) <$> a.

(** [np.sum(mask)] of a boolean array. *)
Definition sum (mask : list bool) : nat :=
  foldr (λ (b : bool) n, if b then S n else n) 0 mask.

(** [x * a]. *)
Definition scale (x : float) (a : list float) : list float :=
  (λ y, PrimFloat.mul x y) <$> a.

Definition is_nan (x : float) : bool := negb (PrimFloat.eqb x x).

(** [np.min] and [np.max]: a [nan] element is the result; an empty array is
    a [ValueError]. *)
Definition minimum (x y : float) : float :=
  if is_nan x then x else if is_nan y then y
  else if PrimFloat.ltb y x then y else x.

Definition maximum (x y : float) : float :=
  if is_nan x then x else if is_nan y then y
  else if PrimFloat.ltb x y then y else x.

Definition min (a : list float) : res float :=
  match a with
  | [] => Raise ValueError
  | x :: a' => Ok (foldl minimum x a')
  end.

Definition max (a : list float) : res float :=
  match a with
  | [] => Raise ValueError
  | x :: a' => Ok (foldl maximum x a')
  end.

(** [rows[mask, :] = values]: the selected rows are overwritten in order by
    the rows of [values], which has one row per selected position. *)
Fixpoint putmask {A} (rows : list A) (mask : list bool) (values : list A)
  : list A :=
  match rows, mask with
  | r :: rows', true :: mask' =>
      match values with
      | v :: values' => v :: putmask rows' mask' values'
      | [] => r :: putmask rows' mask' []
      end
  | r :: rows', false :: mask' => r :: putmask rows' mask' values
  | _, _ => rows
  end.

(** An element read from an array of dtype [float64] or [int64]. *)
Inductive scalar : Set :=
| Float64 (x : float)
| Int64 (z : Z).

(** The cast of a [float64] to [int64] that an assignment into an [int64]
    array makes: the fraction is dropped (rounding toward zero); a [nan], an
    infinity or a value out of range gives the smallest [int64], as it does
    on x86-64. *)
Definition to_int64 (x : float) : Z :=
  match Prim2SF x with
  | S754_zero _ => 0
  | S754_finite s m e =>
      let a := if (0 <=? e)%Z then Z.shiftl (Z.pos m) e
               else Z.shiftr (Z.pos m) (- e) in
      let z := if s then (- a)%Z else a in
      if ((- 2 ^ 63 <=? z) && (z <? 2 ^ 63))%Z then z else (- 2 ^ 63)%Z
  | _ => (- 2 ^ 63)%Z
  end.

(** The cast of an [int] to [float64]: the nearest binary64 number. *)
Definition of_int (n : Z) : float :=
  SF2Prim (binary_normalize prec emax n 0 false).

End Np.

(** The Python objects that reach the run-time type checks of the module. *)
Inductive pyobj : Set :=
| PyNone
| PyStr (s : string)
| PyFloat (x : float)
| PyList (l : list float)
| PyNdarray (a : Np.ndarray).

(** ** Matplotlib: normalization and colormaps *)

Module Mpl.

(** Four channels: a color, or one row of an RGBA array. *)
Record rgba (A : Type) : Type := Rgba { red : A; green : A; blue : A; alpha : A }.
Global Arguments Rgba {A} red green blue alpha.
Global Arguments red {A} r.
Global Arguments green {A} r.
Global Arguments blue {A} r.
Global Arguments alpha {A} r.

Definition rgba_map {A B} (f : A → B) (c : rgba A) : rgba B :=
  Rgba (f (red c)) (f (green c)) (f (blue c)) (f (alpha c)).

(** The array [colors] of [Cifti.set_cmap]: [n] rows of four [float64], or
    [n] rows of four [int64], or the one-dimensional empty array, of shape
    [(0,)], that [np.array([])] is. *)
Inductive rgba_array : Type :=
| Floats (rows : list (rgba float))
| Ints (rows : list (rgba Z))
| Flat.

Definition is_int (n : Py.num) : bool :=
  match n with
  | Py.Int _ _ => true
  | Py.Float _ => false
  end.

Definition all_int (c : rgba Py.num) : bool :=
  is_int (red c) && is_int (green c) && is_int (blue c) && is_int (alpha c).

Definition as_float (n : Py.num) : float :=
  match n with
  | Py.Float x => x
  | Py.Int n _ => Np.of_int n
  end.

Definition as_int (n : Py.num) : Z :=
  match n with
  | Py.Int n _ => n
  | Py.Float x => Np.to_int64 x
  end.

(** [np.array(tuples)] on a list of 4-tuples of numbers: the dtype is
    [int64] when every number is an [int], and [float64] as soon as one of
    them is a [float]; the empty list gives the one-dimensional empty
    array. *)
Definition np_array (tuples : list (rgba Py.num)) : rgba_array :=
  match tuples with
  | [] => Flat
  | _ :: _ =>
      if forallb all_int tuples then Ints (map (rgba_map as_int) tuples)
      else Floats (map (rgba_map as_float) tuples)
  end.

(** The rows of the array, as [colors[i, k]] reads their elements; the
    one-dimensional array has no element [colors[i, k]]. *)
Definition rows (colors : rgba_array) : list (rgba Np.scalar) :=
  match colors with
  | Floats rows => map (rgba_map Np.Float64) rows
  | Ints rows => map (rgba_map Np.Int64) rows
  | Flat => []
  end.

(** [colors[mask, :] = values] for [float64] rows [values]: they are cast
    to the dtype of [colors]; the one-dimensional array has no second axis
    ([IndexError]: too many indices). *)
Definition setmask
    (colors : rgba_array) (mask : list bool) (values : list (rgba float))
  : res rgba_array :=
  match colors with
  | Floats rows => Ok (Floats (Np.putmask rows mask values))
  | Ints rows =>
      Ok (Ints (Np.putmask rows mask (map (rgba_map Np.to_int64) values)))
  | Flat => Raise IndexError
  end.

(** The colormap registry: [call] is [Colormap.__call__] on one value,
    [get_cmap] is [cm.get_cmap] by name (a [ValueError] for a name that is
    not registered); ['Greys'] is one of the built-in colormaps. *)
Class Colormaps := {
  colormap : Type;
  call : colormap → float → rgba float;
  get_cmap : string → res colormap;
  Greys : colormap;
  get_cmap_Greys : get_cmap "Greys" = Ok Greys
}.

(** [colors.Normalize(vmin, vmax)]. *)
Record Normalize : Set := mkNormalize { vmin : float; vmax : float }.

(** [Normalize.__call__] on an array (without clipping): the linear map
    that sends [vmin] to 0 and [vmax] to 1. *)
Definition normalized (norm : Normalize) (x : float) : float :=
  ((x - vmin norm) / (vmax norm - vmin norm))%float.

Definition Normalize_call (norm : Normalize) (value : list float)
  : res (list float) :=
  if PrimFloat.eqb (vmin norm) (vmax norm)
  then Ok (replicate (length value) 0%float)
  else if PrimFloat.ltb (vmax norm) (vmin norm) then Raise ValueError
  else Ok (normalized norm <$> value).

Section with_colormaps.
Context {cmaps : Colormaps}.

(** [cm.ScalarMappable(cmap=name, norm=norm)]. *)
Record ScalarMappable := mkScalarMappable { sm_cmap : colormap; sm_norm : Normalize }.

Definition new_ScalarMappable (cmap : string) (norm : Normalize)
  : res ScalarMappable :=
  c ← get_cmap cmap; Ok (mkScalarMappable c norm).

(** [ScalarMappable.to_rgba] on a one-dimensional array: normalize, then
    look the colors up; the result is an array of [float64]. *)
Definition to_rgba (m : ScalarMappable) (x : list float) : res rgba_array :=
  y ← Normalize_call (sm_norm m) x; Ok (Floats (map (call (sm_cmap m)) y)).

End with_colormaps.

End Mpl.

(** ** ElementTree: XML elements *)

Module ET.

(** An element: its tag, its attributes and its children in order. *)
#[local] Unset Elimination Schemes.
Inductive element : Type :=
| Element (tag : string) (attrib : gmap string string) (children : list element).
#[local] Set Elimination Schemes.

Definition tag (e : element) : string := let 'Element t _ _ := e in t.
Definition attrib (e : element) : gmap string string := let 'Element _ a _ := e in a.
Definition children (e : element) : list element := let 'Element _ _ c := e in c.

(** [len(e)], [e[i]] and [e.set(key, value)]. *)
Definition len (e : element) : nat := length (children e).
Definition getitem (e : element) (i : nat) : res element := Py.getitem (children e) i.
Definition set (key value : string) (e : element) : element :=
  Element (tag e) (<[key := value]> (attrib e)) (children e).

(** [e[i0][i1]...]. *)
Fixpoint at_path (e : element) (path : list nat) : res element :=
  match path with
  | [] => Ok e
  | i :: path' => c ← getitem e i; at_path c path'
  end.

(** The tree after the element at [path] has been mutated in place by
    [f]. *)
Fixpoint update_path (f : element → element) (e : element) (path : list nat)
  : res element :=
  match path with
  | [] => Ok (f e)
  | i :: path' =>
      c ← getitem e i;
      c' ← update_path f c path';
      Ok (Element (tag e) (attrib e) (<[i := c']> (children e)))
  end.

(** [fromstring] and [tostring]. *)
Class Codec := {
  fromstring : string → res element;
  tostring : element → string
}.

End ET.

(** ** nibabel: images and files *)

Module Nib.

(** A header extension object.  [_content] is what the extension was
    built from: [get_content()] returns it and it is what is written to a
    file.  [content] is the attribute of that name on the object, which an
    extension does not have until some code assigns it. *)
Record extension : Type := Extension { _content : string; content : option string }.

Definition get_content (e : extension) : string := _content e.

(** A header: its extensions, and its other fields. *)
Record header : Type := Header { extensions : list extension; fields : list (string * string) }.

(** An image in memory. *)
Record image : Type := Image {
  dataobj_shape : list N;
  dataobj : list float;
  affine : list float;
  hdr : header
}.

(** An image in a file: the data as they are stored, and of the header what
    is serialized. *)
Record file : Type := File {
  file_shape : list N;
  file_data : list float;
  file_affine : list float;
  file_extensions : list string;
  file_fields : list (string * string)
}.

(** The file system: the image stored at each path. *)
Abbreviation files := (gmap string file).

(** The on-disk datatype that the fields of a header name: [as_stored] is
    an array as it is read back after it has been written with that header
    (unchanged for a [float64] header, rounded to binary32 for a [float32]
    one).  [images.py] never looks at the datatype; it is a parameter. *)
Class Datatype := { as_stored : list (string * string) → list float → list float }.

Definition from_file (f : file) : image :=
  Image (file_shape f) (file_data f) (file_affine f)
        (Header (map (λ c, Extension c None) (file_extensions f)) (file_fields f)).

Definition to_file `{Datatype} (img : image) : file :=
  File (dataobj_shape img) (as_stored (fields (hdr img)) (dataobj img))
       (affine img) (map _content (extensions (hdr img))) (fields (hdr img)).

Definition load (fs : files) (path : string) : res image :=
  match fs !! path with
  | Some f => Ok (from_file f)
  | None => Raise FileNotFoundError
  end.

Definition save `{Datatype} (img : image) (path : string) (fs : files) : files :=
  <[path := to_file img]> fs.

End Nib.

(** ** The collaborators of the module *)

(** [wbplot.plots]: the two validation calls made by [Cifti.set_cmap].  The
    module is a collaborator of [images.py]; its two functions are
    parameters here. *)
Class Plots := {
  check_cmap : option string → res string;
  check_vrange : option (float * float) → res (option (float * float))
}.

(** [wbplot.constants]: the template files and the default output
    directory ([savedir] defaults to [DATA_DIR]), parameters as well. *)
Class Constants := {
  DLABEL_FILE : string;
  DSCALAR_FILE : string;
  DATA_DIR : string
}.

(** [str] on a [float64], a parameter; on an [int64] it is the decimal
    form. *)
Class Repr := { float64_str : float → string }.

Definition str `{Repr} (x : Np.scalar) : string :=
  match x with
  | Np.Float64 x => float64_str x
  | Np.Int64 z => pretty z
  end.

(** ** Hemisphere tags *)

(** A hemisphere argument is [None] or a string. *)
Definition check_hemisphere (hemisphere : option string) : res (option string) :=
  let options :=
    [Some "left"; Some "l"; Some "L"; Some "right"; Some "r"; Some "R";
     None; Some "lr"; Some "LR"] in
  if decide (hemisphere ∉ options) then Raise ValueError
  else if decide (hemisphere ∈ [Some "left"; Some "l"; Some "L"])
  then Ok (Some "left")
  else if decide (hemisphere ∈ [Some "right"; Some "r"; Some "R"])
  then Ok (Some "right")
  else if decide (hemisphere ∈ [Some "None"; Some "lr"; Some "LR"])
  then Ok None
  else Ok None (* the body ends here: the call returns None *).

(** [pscalars] is a one-dimensional array, given by its elements. *)
Definition map_unilateral_to_bilateral
    (pscalars : list float) (hemisphere : option string) : res (list float) :=
  hemisphere ← check_hemisphere hemisphere;
  match hemisphere with
  | None => Ok pscalars
  | Some h =>
      let pscalars_lr := Np.zeros 360 in
      if decide (h = "right") then Np.setslice pscalars_lr 180 360 pscalars
      else if decide (h = "left") then Np.setslice pscalars_lr 0 180 pscalars
      else Ok pscalars_lr
  end.

(** ** Shape validation *)

Definition check_pscalars_unilateral (pscalars : pyobj) : res unit :=
  match pscalars with
  | PyNdarray a =>
      if decide (Np.ndim a ≠ 1%N) then Raise RuntimeError
      else if decide (Np.size a ≠ 180%N) then Raise RuntimeError
      else Ok ()
  | _ => Raise RuntimeError
  end.

Definition check_pscalars_bilateral (pscalars : pyobj) : res unit :=
  match pscalars with
  | PyNdarray a =>
      if decide (Np.ndim a ≠ 1%N) then Raise RuntimeError
      else if decide (Np.size a ≠ 360%N) then Raise RuntimeError
      else Ok ()
  | _ => Raise RuntimeError
  end.

Definition check_dscalars (dscalars : pyobj) : res unit :=
  match dscalars with
  | PyNdarray a =>
      if decide (Np.ndim a ≠ 1%N) then Raise RuntimeError
      else if decide (Np.size a ≠ 91282%N) then Raise RuntimeError
      else Ok ()
  | _ => Raise RuntimeError
  end.

(** ** The [Cifti] class *)

Module Cifti.

Record t : Type := mk {
  data_shape : list N;
  data : list float;
  affine : list float;
  header : Nib.header;
  extensions : ET.element;
  vrange : option (float * float);
  ischanged : bool
}.

Definition set_vrange (v : option (float * float)) (self : t) : t :=
  mk (data_shape self) (data self) (affine self) (header self)
     (extensions self) v (ischanged self).

Definition set_extensions (e : ET.element) (self : t) : t :=
  mk (data_shape self) (data self) (affine self) (header self)
     e (vrange self) (ischanged self).

Definition set_header (h : Nib.header) (self : t) : t :=
  mk (data_shape self) (data self) (affine self) h
     (extensions self) (vrange self) (ischanged self).

Definition set_ischanged (b : bool) (self : t) : t :=
  mk (data_shape self) (data self) (affine self) (header self)
     (extensions self) (vrange self) b.

(** [self'] differs from [self] in its tree at most. *)
Definition same_but_tree (self self' : t) : Prop :=
  self' = set_extensions (extensions self') self.

(** [self.extensions[0][1][0][1]]: the label table, whose children are the
    color-table entries. *)
Definition label_table : list nat := [0; 1; 0; 1].

(** The tree [e'] is the tree [e] with the label table replaced. *)
Definition table_replaced (e e' : ET.element) : Prop :=
  ∃ t', ET.update_path (λ _, t') e label_table = Ok e'.

Section methods.
Context {cmaps : Mpl.Colormaps} {codec : ET.Codec} {plots : Plots} {repr : Repr}
        {dtype : Nib.Datatype}.

Definition __init__ (fs : Nib.files) (image_file : string) : res t :=
  of_ ← Nib.load fs image_file;
  extension ← Py.getitem (Nib.extensions (Nib.hdr of_)) 0;
  extensions ← ET.fromstring (Nib.get_content extension);
  Ok (mk (Nib.dataobj_shape of_) (Nib.dataobj of_) (Nib.affine of_) (Nib.hdr of_)
         extensions None false).

(** The first block of [set_cmap]: map data to colors.  [cmap] and [vrange]
    have been through the validation calls.  A mappable returns the four
    numbers of a color. *)
Definition map_data_to_colors
    (data : list float) (cmap : string) (vrange : option (float * float))
    (mappable : option (float → Mpl.rgba Py.num)) : M t Mpl.rgba_array :=
  match mappable with
  | None =>
      do vr <- lift (match vrange with
                     | None =>
                         lo ← Np.min data; hi ← Np.max data; Ok (lo, hi)
                     | Some vr => Ok vr
                     end);
      do_ modify (set_vrange (Some vr));
      let cnorm := Mpl.mkNormalize (fst vr) (snd vr) in
      do clr_map <- lift (Mpl.new_ScalarMappable cmap cnorm);
      lift (Mpl.to_rgba clr_map data)
  | Some f => ret_M (Mpl.np_array (map f data))
  end.

(** The second block: set zero values (masked values) to grey. *)
Definition set_zero_to_grey (data : list float) (colors : Mpl.rgba_array)
  : res Mpl.rgba_array :=
  greys ← Mpl.get_cmap "Greys";
  let mask := Np.eq_scalar data 0%float in
  let nullmap :=
    map (Mpl.call greys) (Np.scale 0.2%float (Np.ones (Np.sum mask))) in
  Mpl.setmask colors mask nullmap.

(** One statement of the loop body:
    [self.extensions[0][1][0][1][ii].set(key, str(colors[ii - 1, k]))]. *)
Definition set_component
    (colors : Mpl.rgba_array) (ii : nat) (key : string)
    (k : Mpl.rgba Np.scalar → Np.scalar) : M t unit :=
  do self <- get_M;
  do _entry <- lift (ET.at_path (extensions self) (label_table ++ [ii]));
  do row <- lift (Py.getitem (Mpl.rows colors) (ii - 1));
  do tree <- lift (ET.update_path (ET.set key (str (k row)))
                     (extensions self) (label_table ++ [ii]));
  modify (set_extensions tree).

(** The body of the loop, for the entry [ii]. *)
Definition set_entry (colors : Mpl.rgba_array) (ii : nat) : M t unit :=
  do_ set_component colors ii "Red" Mpl.red;
  do_ set_component colors ii "Green" Mpl.green;
  do_ set_component colors ii "Blue" Mpl.blue;
  set_component colors ii "Alpha" Mpl.alpha.

(** The third block: the loop over the entries of the label table. *)
Definition write_colors (colors : Mpl.rgba_array) : M t unit :=
  do self <- get_M;
  do table <- lift (ET.at_path (extensions self) label_table);
  for_ (range 1 (ET.len table)) (set_entry colors).

(** An entry with its four color attributes overwritten from [row]. *)
Definition patch (row : Mpl.rgba Np.scalar) (entry : ET.element) : ET.element :=
  ET.set "Alpha" (str (Mpl.alpha row))
    (ET.set "Blue" (str (Mpl.blue row))
       (ET.set "Green" (str (Mpl.green row))
          (ET.set "Red" (str (Mpl.red row)) entry))).

(** The colors that [set_cmap] computes: the general mapping, then the
    override of the zero values. *)
Definition colors_of
    (data : list float) (cmap : string) (vrange : option (float * float))
    (mappable : option (float → Mpl.rgba Py.num)) : M t Mpl.rgba_array :=
  do colors <- map_data_to_colors data cmap vrange mappable;
  lift (set_zero_to_grey data colors).

Definition set_cmap
    (data : list float) (cmap : option string)
    (vrange : option (float * float))
    (mappable : option (float → Mpl.rgba Py.num)) : M t unit :=
  do cmap <- lift (check_cmap cmap);
  do vrange <- lift (check_vrange vrange);
  do colors <- colors_of data cmap vrange mappable;
  do_ write_colors colors;
  modify (set_ischanged true).

(** [self.header.extensions[0].content = eT.tostring(self.extensions)]: the
    assignment sets the attribute [content] of the extension object. *)
Definition write_extensions (self : t) : res t :=
  extension ← Py.getitem (Nib.extensions (header self)) 0;
  let extension :=
    Nib.Extension (Nib._content extension) (Some (ET.tostring (extensions self))) in
  Ok (set_header
        (Nib.Header (<[0 := extension]> (Nib.extensions (header self)))
                    (Nib.fields (header self)))
        self).

Definition save (self : t) (fout : string) (fs : Nib.files)
  : res (t * Nib.files) :=
  self ← (if ischanged self then write_extensions self else Ok self);
  let new_img :=
    Nib.Image (data_shape self) (data self) (affine self) (header self) in
  Ok (self, Nib.save new_img fout fs).

End methods.

End Cifti.

(** ** Writing images *)

Section writers.
Context {cmaps : Mpl.Colormaps} {codec : ET.Codec} {plots : Plots} {repr : Repr}
        {dtype : Nib.Datatype} {consts : Constants}.

Definition write_parcellated_image
    (data : list float) (fout : string) (hemisphere : option string)
    (vrange : option (float * float)) (cmap : option string)
    (fs : Nib.files) : res Nib.files :=
  _ ← check_hemisphere hemisphere;
  pscalars_lr ← map_unilateral_to_bilateral data hemisphere;
  c ← Cifti.__init__ fs DLABEL_FILE;
  match Cifti.set_cmap pscalars_lr cmap vrange None c with
  | (Raise e, _) => Raise e
  | (Ok _, c) => r ← Cifti.save c fout fs; Ok (snd r)
  end.

(** The name under which [write_dense_image] saves. *)
Definition dense_name (fout : string) : string :=
  if bool_decide (Py.last_chars 12 fout ≠ ".dscalar.nii")
  then fout +:+ ".dscalar.nii" else fout.

(** The state is the store of array buffers and the file system;
    [dscalars] refers to its buffer in the store. *)
Definition write_dense_image (dscalars : pyobj) (fout savedir : string)
  : M (Np.store * Nib.files) unit :=
  do_ lift (check_dscalars dscalars);
  let fout := dense_name fout in
  match dscalars with
  | PyNdarray dscalars =>
      do new_data <- (λ w, let '(r, σ) := Np.copy dscalars (fst w) in (r, (σ, snd w)));
      do of_ <- (λ w, (Nib.load (snd w) DSCALAR_FILE, w));
      do temp_data <-
        (λ w, let '(a, σ) := Np.array (Nib.dataobj_shape of_) (Nib.dataobj of_) (fst w)
              in (Ok a, (σ, snd w)));
      do data_to_write <- lift (Np.reshape new_data (Np.shape temp_data));
      do values <- (λ w, (match fst w !! Np.buffer data_to_write with
                          | Some v => Ok v
                          | None => Raise RuntimeError
                          end, w));
      let new_img :=
        Nib.Image (Np.shape data_to_write) values (Nib.affine of_) (Nib.hdr of_) in
      modify (λ w, (fst w, Nib.save new_img (Py.join savedir fout) (snd w)))
  | _ => lift (Raise RuntimeError) (* excluded by check_dscalars *)
  end.

End writers.

(** ** A concrete setting

    A small colormap registry, XML codec, validation module and template
    files, on which the functions above can be run. *)

Module Demo.

Definition cmaps : Mpl.Colormaps := {|
  Mpl.colormap := string;
  Mpl.call := λ _ x, Mpl.Rgba x x x 1%float;
  Mpl.get_cmap := λ name,
    if bool_decide (name ∈ ["Greys"; "magma"]) then Ok name
    else Raise ValueError;
  Mpl.Greys := "Greys";
  Mpl.get_cmap_Greys := eq_refl
|}.

Definition entry (key : string) : ET.element :=
  ET.Element "Label"
    {[ "Key" := key; "Red" := "1.0"; "Green" := "1.0"; "Blue" := "1.0";
       "Alpha" := "0.0" ]} [].

Definition table : ET.element :=
  ET.Element "LabelTable" ∅ [entry "0"; entry "1"; entry "2"].

Definition tree : ET.element :=
  ET.Element "CIFTI" ∅
    [ET.Element "Matrix" ∅
       [ET.Element "MetaData" ∅ [];
        ET.Element "MatrixIndicesMap" ∅
          [ET.Element "NamedMap" ∅
             [ET.Element "MapName" ∅ []; table]]]].

Definition plots : Plots := {|
  check_cmap := λ cmap, Ok (default "magma" cmap);
  check_vrange := λ vrange, Ok vrange
|}.

Definition repr : Repr := {|
  float64_str := λ x,
    if PrimFloat.eqb x 0%float then "0.0"
    else if PrimFloat.eqb x 0.2%float then "0.2"
    else if PrimFloat.eqb x 0.5%float then "0.5"
    else if PrimFloat.eqb x 1%float then "1.0"
    else "nan"
|}.

(** The template stores [float64]. *)
Definition dtype : Nib.Datatype := {| Nib.as_stored := λ _ values, values |}.

Definition consts : Constants := {|
  DLABEL_FILE := "/templates/parcels.dlabel.nii";
  DSCALAR_FILE := "/templates/dense.dscalar.nii";
  DATA_DIR := "/data"
|}.

Definition dlabel : Nib.file :=
  Nib.File [1%N; 2%N] [1%float; 2%float] [] ["<CIFTI 1.0/>"] [].

Definition cifti : Cifti.t :=
  Cifti.mk [1%N; 2%N] [1%float; 2%float] []
           (Nib.Header [Nib.Extension "<CIFTI 1.0/>" None] [])
           tree None false.

(** Two parcels, the first of them masked. *)
Definition data : list float := [0%float; 0.5%float].

Definition cifti_after : Cifti.t :=
  snd (Cifti.set_cmap (cmaps := cmaps) (plots := plots) (repr := repr)
         data None None None cifti).

(** The codec writes the ['Red'] attribute of the first parcel into the
    document and reads the two documents of this setting. *)
Definition first_red (e : ET.element) : string :=
  match ET.at_path e (Cifti.label_table ++ [1]) with
  | Ok entry => default "" (ET.attrib entry !! "Red")
  | Raise _ => ""
  end.

Definition codec : ET.Codec := {|
  ET.fromstring := λ content,
    if bool_decide (content = "<CIFTI 1.0/>") then Ok tree
    else if bool_decide (content = "<CIFTI 0.2/>")
    then Ok (Cifti.extensions cifti_after)
    else Raise ParseError;
  ET.tostring := λ e, "<CIFTI " +:+ first_red e +:+ "/>"
|}.

(** A dense vector and the dense template. *)
Definition dense : list float := replicate (N.to_nat 91282) 0.5%float.

Definition dscalar : Nib.file :=
  Nib.File [1%N; 91282%N] (replicate (N.to_nat 91282) 0%float) [] [] [].

Definition store : Np.store := {[ 1%positive := dense ]}.

Definition files : Nib.files :=
  {[ "/templates/parcels.dlabel.nii" := dlabel;
     "/templates/dense.dscalar.nii" := dscalar ]}.

Definition dscalars : pyobj := PyNdarray (Np.Ndarray [91282%N] 1%positive).

(** A file system that holds the dlabel template only, and a changed
    object. *)
Definition labels : Nib.files := {[ "/templates/parcels.dlabel.nii" := dlabel ]}.

Definition changed : Cifti.t := Cifti.set_ischanged true cifti.

(** Two custom mappables: shades of grey as [float]s, and opaque red as
    [int]s. *)
Definition shade (x : float) : Mpl.rgba Py.num :=
  Mpl.Rgba (Py.Float x) (Py.Float x) (Py.Float x) (Py.Float 1%float).

Definition red (x : float) : Mpl.rgba Py.num :=
  Mpl.Rgba (Py.Int 1 I) (Py.Int 0 I) (Py.Int 0 I) (Py.Int 1 I).


(** The changed object saved, the colored object saved, and a
    left-hemisphere vector written. *)
Definition saved : Cifti.t * Nib.files :=
  match Cifti.save (codec := codec) (dtype := dtype)
          changed "/data/out.dlabel.nii" labels with
  | Ok r => r
  | Raise _ => (changed, labels)
  end.

Definition colored : Cifti.t * Nib.files :=
  match Cifti.save (codec := codec) (dtype := dtype)
          cifti_after "/data/out.dlabel.nii" labels with
  | Ok r => r
  | Raise _ => (cifti_after, labels)
  end.

Definition labels_after : Nib.files :=
  match write_parcellated_image (cmaps := cmaps) (codec := codec)
          (plots := plots) (repr := repr) (dtype := dtype) (consts := consts)
          [5%float] "/data/out.dlabel.nii" (Some "left") None None labels with
  | Ok fs => fs
  | Raise _ => labels
  end.

End Demo.

(** * Properties *)

(** ** Hemisphere tags and padding *)

(** C3: [check_hemisphere] returns ['left'] for ['left'], ['l'], ['L'];
    ['right'] for ['right'], ['r'], ['R']; [None] for [None], ['lr'],
    ['LR']; and raises [ValueError] for every other argument. *)
Theorem check_hemisphere_normalizes :
  check_hemisphere (Some "left") = Ok (Some "left") ∧
  check_hemisphere (Some "l") = Ok (Some "left") ∧
  check_hemisphere (Some "L") = Ok (Some "left") ∧
  check_hemisphere (Some "right") = Ok (Some "right") ∧
  check_hemisphere (Some "r") = Ok (Some "right") ∧
  check_hemisphere (Some "R") = Ok (Some "right") ∧
  check_hemisphere None = Ok None ∧
  check_hemisphere (Some "lr") = Ok None ∧
  check_hemisphere (Some "LR") = Ok None ∧
  (∀ h : option string,
     h ∉ [Some "left"; Some "l"; Some "L"; Some "right"; Some "r"; Some "R";
          None; Some "lr"; Some "LR"] →
     check_hemisphere h = Raise ValueError).
Proof.
  repeat split; try reflexivity.
  intros h Hh. unfold check_hemisphere.
  destruct (decide _) as [_ | Hin]; [reflexivity | contradiction].
Qed.

Lemma check_hemisphere_range (h r : option string) :
  check_hemisphere h = Ok r → r = Some "left" ∨ r = Some "right" ∨ r = None.
Proof.
  unfold check_hemisphere.
  repeat (destruct (decide _)); intros [= <-]; auto.
Qed.

Lemma zeros_length n : length (Np.zeros n) = n.
Proof. apply length_replicate. Qed.

Lemma setslice_exact (a v : list float) (lo hi : nat) :
  length v = hi - lo →
  Np.setslice a lo hi v = Ok (take lo a ++ v ++ drop hi a).
Proof.
  intros Hlen. unfold Np.setslice.
  destruct (decide _); [reflexivity | contradiction].
Qed.

Lemma setslice_broadcast (a : list float) (x : float) (lo hi : nat) :
  Np.setslice a lo hi [x] = Ok (take lo a ++ replicate (hi - lo) x ++ drop hi a).
Proof.
  unfold Np.setslice. destruct (decide _) as [Hlen | _]; [| reflexivity].
  cbn [length] in Hlen. rewrite <- Hlen. reflexivity.
Qed.

Lemma setslice_mismatch (a v : list float) (lo hi : nat) :
  length v ≠ hi - lo → length v ≠ 1 → Np.setslice a lo hi v = Raise ValueError.
Proof.
  intros Hn H1. unfold Np.setslice.
  destruct (decide _); [contradiction |].
  destruct v as [| x [| y v']]; try reflexivity. contradiction H1. reflexivity.
Qed.

Lemma left_half (v : list float) :
  take 0 (Np.zeros 360) ++ v ++ drop 180 (Np.zeros 360) = v ++ Np.zeros 180.
Proof. unfold Np.zeros. rewrite drop_replicate. reflexivity. Qed.

Lemma right_half (v : list float) :
  take 180 (Np.zeros 360) ++ v ++ drop 360 (Np.zeros 360) = Np.zeros 180 ++ v.
Proof.
  unfold Np.zeros. rewrite take_replicate, drop_replicate.
  change (replicate (360 - 360) 0%float) with (@nil float).
  change (180 `min` 360) with 180. rewrite app_nil_r. reflexivity.
Qed.

Lemma pad_left (v : list float) :
  length v = 180 →
  map_unilateral_to_bilateral v (Some "left") = Ok (v ++ Np.zeros 180).
Proof.
  intros Hlen. unfold map_unilateral_to_bilateral.
  change (check_hemisphere (Some "left")) with (@Ok (option string) (Some "left")).
  cbn [mbind res_bind Py.bind].
  destruct (decide _) as [[=] |]. destruct (decide _) as [_ | []]; [| reflexivity].
  rewrite setslice_exact by exact Hlen. rewrite left_half. reflexivity.
Qed.

Lemma pad_right (v : list float) :
  length v = 180 →
  map_unilateral_to_bilateral v (Some "right") = Ok (Np.zeros 180 ++ v).
Proof.
  intros Hlen. unfold map_unilateral_to_bilateral.
  change (check_hemisphere (Some "right")) with (@Ok (option string) (Some "right")).
  cbn [mbind res_bind Py.bind].
  destruct (decide _) as [_ | []]; [| reflexivity].
  rewrite setslice_exact by exact Hlen. rewrite right_half. reflexivity.
Qed.

(** C2: for a vector [v] of length 180, padding with ['left'] gives a
    vector of length 360 with [v] at the indices [0,180) and zeros at
    [180,360); padding with ['right'] gives zeros at [0,180) and [v] at
    [180,360); with [None] the argument is returned as it is. *)
Theorem map_unilateral_to_bilateral_pads (v : list float) :
  length v = 180 →
  (∃ r, map_unilateral_to_bilateral v (Some "left") = Ok r ∧
        length r = 360 ∧
        (∀ i, i < 180 → r !! i = v !! i) ∧
        (∀ i, 180 ≤ i < 360 → r !! i = Some 0%float)) ∧
  (∃ r, map_unilateral_to_bilateral v (Some "right") = Ok r ∧
        length r = 360 ∧
        (∀ i, i < 180 → r !! i = Some 0%float) ∧
        (∀ i, 180 ≤ i < 360 → r !! i = v !! (i - 180))) ∧
  map_unilateral_to_bilateral v None = Ok v.
Proof.
  intros Hlen. split; [| split].
  - exists (v ++ Np.zeros 180). split; [by apply pad_left |].
    split; [rewrite length_app, zeros_length; lia |]. split.
    + intros i Hi. apply lookup_app_l. lia.
    + intros i Hi. rewrite lookup_app_r by lia.
      apply lookup_replicate_2. lia.
  - exists (Np.zeros 180 ++ v). split; [by apply pad_right |].
    split; [rewrite length_app, zeros_length; lia |]. split.
    + intros i Hi. rewrite lookup_app_l by (rewrite zeros_length; lia).
      apply lookup_replicate_2. lia.
    + intros i Hi. rewrite lookup_app_r by (rewrite zeros_length; lia).
      rewrite zeros_length. reflexivity.
  - reflexivity.
Qed.

Lemma map_unilateral_to_bilateral_pads_witness :
  length (replicate 180 1%float) = 180 ∧
  map_unilateral_to_bilateral (replicate 180 1%float) None
  = Ok (replicate 180 1%float).
Proof.
  split; [reflexivity |].
  apply (map_unilateral_to_bilateral_pads (replicate 180 1%float)).
  reflexivity.
Defined.

Lemma broadcast_left (x : float) :
  map_unilateral_to_bilateral [x] (Some "left")
  = Ok (replicate 180 x ++ Np.zeros 180).
Proof.
  unfold map_unilateral_to_bilateral.
  change (check_hemisphere (Some "left")) with (@Ok (option string) (Some "left")).
  cbn [mbind res_bind Py.bind].
  destruct (decide _) as [[=] |]. destruct (decide _) as [_ | []]; [| reflexivity].
  rewrite setslice_broadcast.
  change (180 - 0) with 180. rewrite left_half. reflexivity.
Qed.

Lemma broadcast_right (x : float) :
  map_unilateral_to_bilateral [x] (Some "right")
  = Ok (Np.zeros 180 ++ replicate 180 x).
Proof.
  unfold map_unilateral_to_bilateral.
  change (check_hemisphere (Some "right")) with (@Ok (option string) (Some "right")).
  cbn [mbind res_bind Py.bind].
  destruct (decide _) as [_ | []]; [| reflexivity].
  rewrite setslice_broadcast.
  change (360 - 180) with 180. rewrite right_half. reflexivity.
Qed.

(** A vector whose length is neither 180 nor 1 is refused by the slice
    assignment. *)
Lemma map_unilateral_to_bilateral_mismatch (v : list float) (h : string) :
  h = "left" ∨ h = "right" →
  length v ≠ 180 → length v ≠ 1 →
  map_unilateral_to_bilateral v (Some h) = Raise ValueError.
Proof.
  intros [-> | ->] H180 H1; unfold map_unilateral_to_bilateral.
  - change (check_hemisphere (Some "left")) with (@Ok (option string) (Some "left")).
    cbn [mbind res_bind Py.bind].
    destruct (decide _) as [[=] |]. destruct (decide _) as [_ | []]; [| reflexivity].
    by apply setslice_mismatch.
  - change (check_hemisphere (Some "right")) with (@Ok (option string) (Some "right")).
    cbn [mbind res_bind Py.bind].
    destruct (decide _) as [_ | []]; [| reflexivity].
    by apply setslice_mismatch.
Qed.

(** ** Shape validation *)

Lemma one_dimensional (a : Np.ndarray) (n : N) :
  Np.ndim a = 1%N ∧ Np.size a = n ↔ Np.shape a = [n].
Proof.
  unfold Np.ndim, Np.size. destruct a as [shp buf]. cbn [Np.shape]. split.
  - intros [Hdim Hsize]. destruct shp as [| m [| m' shp]]; cbn in Hdim; try lia.
    cbn in Hsize. f_equal. lia.
  - intros ->. cbn. split; lia.
Qed.

(** C5: [check_pscalars_unilateral] returns (None) exactly for the
    one-dimensional ndarrays of length 180, and raises an error
    ([RuntimeError]) for every other argument: one that is not an ndarray,
    is not one-dimensional, or has another length. *)
Theorem check_pscalars_unilateral_spec (pscalars : pyobj) :
  (check_pscalars_unilateral pscalars = Ok () ↔
     ∃ a, pscalars = PyNdarray a ∧ Np.ndim a = 1%N ∧ Np.size a = 180%N) ∧
  (check_pscalars_unilateral pscalars = Ok () ↔
     ∃ buf, pscalars = PyNdarray (Np.Ndarray [180%N] buf)) ∧
  (check_pscalars_unilateral pscalars ≠ Ok () ↔
     check_pscalars_unilateral pscalars = Raise RuntimeError).
Proof.
  assert (Hspec : check_pscalars_unilateral pscalars = Ok () ↔
     ∃ a, pscalars = PyNdarray a ∧ Np.ndim a = 1%N ∧ Np.size a = 180%N).
  { unfold check_pscalars_unilateral. split.
    - destruct pscalars as [| | | | a]; try discriminate.
      repeat (destruct (decide _)); try discriminate.
      intros _. exists a. repeat split; [by apply dec_stable..].
    - intros (a & -> & Hdim & Hsize).
      repeat (destruct (decide _)); [contradiction.. | reflexivity]. }
  split; [exact Hspec | split].
  - rewrite Hspec. split.
    + intros ([shp buf] & -> & Hd). apply one_dimensional in Hd.
      cbn in Hd. subst shp. by exists buf.
    + intros [buf ->]. eexists. split; [reflexivity |].
      by apply one_dimensional.
  - unfold check_pscalars_unilateral.
    destruct pscalars as [| | | | a]; try (split; [reflexivity | discriminate]).
    repeat (destruct (decide _));
      (split; [try reflexivity; intros []; reflexivity | try discriminate; intros [=]]).
Qed.

(** ** Comparisons of binary64 numbers *)

Lemma SFcompare_antisym (a b : spec_float) :
  SFcompare b a = CompOpp <$> SFcompare a b.
Proof.
  destruct a as [s1 | s1 | | s1 m1 e1], b as [s2 | s2 | | s2 m2 e2]; cbn;
    try destruct s1; try destruct s2; try reflexivity;
    rewrite (Z.compare_antisym e1 e2); destruct (e1 ?= e2)%Z; cbn;
    try reflexivity; f_equal;
    by rewrite (Pos.compare_cont_antisym m1 m2 Eq).
Qed.

Lemma ltb_not_eqb (x y : float) :
  PrimFloat.ltb x y = true → PrimFloat.eqb x y = false.
Proof.
  rewrite FloatAxioms.ltb_spec, FloatAxioms.eqb_spec. unfold SFltb, SFeqb.
  by destruct (SFcompare _ _) as [[] |].
Qed.

Lemma ltb_asym (x y : float) :
  PrimFloat.ltb x y = true → PrimFloat.ltb y x = false.
Proof.
  rewrite !FloatAxioms.ltb_spec. unfold SFltb.
  rewrite (SFcompare_antisym (Prim2SF x) (Prim2SF y)).
  by destruct (SFcompare _ _) as [[] |].
Qed.

(** Between distinct ordered bounds the normalization is the linear map. *)
Lemma Normalize_call_linear (lo hi : float) (value : list float) :
  PrimFloat.ltb lo hi = true →
  Mpl.Normalize_call (Mpl.mkNormalize lo hi) value
  = Ok ((λ x, ((x - lo) / (hi - lo))%float) <$> value).
Proof.
  intros Hlt. unfold Mpl.Normalize_call. cbn [Mpl.vmin Mpl.vmax].
  by rewrite (ltb_not_eqb _ _ Hlt), (ltb_asym _ _ Hlt).
Qed.

(** ** In-place updates of an XML tree *)

Lemma getitem_Ok {A} (l : list A) (i : nat) (x : A) :
  Py.getitem l i = Ok x ↔ l !! i = Some x.
Proof.
  unfold Py.getitem. destruct (l !! i); split; intros [=]; by subst.
Qed.

Lemma bind_Ok {A B} (r : res A) (k : A → res B) (b : B) :
  r ≫= k = Ok b ↔ ∃ a, r = Ok a ∧ k a = Ok b.
Proof.
  destruct r as [a | e]; cbn; split.
  - intros Hk. by exists a.
  - by intros (a' & [= <-] & Hk).
  - discriminate.
  - by intros (a' & [=] & _).
Qed.

Lemma at_path_snoc (e t : ET.element) (path : list nat) (i : nat) :
  ET.at_path e path = Ok t →
  ET.at_path e (path ++ [i]) = ET.getitem t i.
Proof.
  revert e. induction path as [| j path IH]; intros e; cbn [ET.at_path app].
  - intros [= ->]. by destruct (ET.getitem t i).
  - intros (c & -> & Hc)%bind_Ok. cbn. by apply IH.
Qed.

Lemma at_path_snoc_Ok (e c : ET.element) (path : list nat) (i : nat) :
  ET.at_path e (path ++ [i]) = Ok c →
  ∃ t, ET.at_path e path = Ok t ∧ ET.children t !! i = Some c.
Proof.
  revert e. induction path as [| j path IH]; intros e; cbn [ET.at_path app].
  - intros (c' & Hc' & [= ->])%bind_Ok. exists e. split; [done |].
    by apply getitem_Ok.
  - intros (d & Hd & Hrest)%bind_Ok. destruct (IH _ Hrest) as (t & Ht & Hc).
    exists t. split; [| done]. rewrite Hd. exact Ht.
Qed.

(** An update succeeds wherever the path leads to an element. *)
Lemma update_path_total (f : ET.element → ET.element) (e c : ET.element)
    (path : list nat) :
  ET.at_path e path = Ok c → ∃ e', ET.update_path f e path = Ok e'.
Proof.
  revert e. induction path as [| j path IH]; intros e; cbn [ET.at_path ET.update_path].
  - intros _. by eexists.
  - intros (d & Hd & Hrest)%bind_Ok. destruct (IH _ Hrest) as [d' Hd'].
    rewrite Hd. cbn. rewrite Hd'. cbn. by eexists.
Qed.

(** Updating the child [i] of the element at [path] leaves that element
    with the same tag and attributes, and with the child replaced. *)
Lemma update_path_child (f : ET.element → ET.element) (e e' : ET.element)
    (path : list nat) (i : nat) :
  ET.update_path f e (path ++ [i]) = Ok e' →
  ∃ t c, ET.at_path e path = Ok t ∧ ET.children t !! i = Some c ∧
         ET.at_path e' path
         = Ok (ET.Element (ET.tag t) (ET.attrib t) (<[i := f c]> (ET.children t))).
Proof.
  revert e e'. induction path as [| j path IH]; intros e e';
    cbn [ET.at_path ET.update_path app].
  - intros (c & Hc & [= <-])%bind_Ok. exists e, c.
    split; [done |]. split; [by apply getitem_Ok | done].
  - intros (d & Hd & (d' & Hd' & [= <-])%bind_Ok)%bind_Ok.
    destruct (IH _ _ Hd') as (t & c & Ht & Hc & Ht').
    exists t, c. rewrite Hd. cbn. split; [done |]. split; [done |].
    unfold ET.getitem at 1. cbn [ET.children].
    apply getitem_Ok in Hd.
    assert (Hj : Py.getitem (<[j := d']> (ET.children e)) j = Ok d').
    { apply getitem_Ok, list_lookup_insert_eq. by eapply lookup_lt_Some. }
    rewrite Hj. exact Ht'.
Qed.

Lemma bind_M_Ok {S A B} (m : M S A) (k : A → M S B) (s s' : S) (b : B) :
  bind_M m k s = (Ok b, s') ↔ ∃ a s1, m s = (Ok a, s1) ∧ k a s1 = (Ok b, s').
Proof.
  unfold bind_M. destruct (m s) as [[a | e] s1]; split.
  - intros Hk. by exists a, s1.
  - by intros (a' & s1' & [= <- <-] & Hk).
  - discriminate.
  - by intros (a' & s1' & [=] & _).
Qed.

Lemma lift_Ok {S A} (r : res A) (s s' : S) (a : A) :
  lift r s = (Ok a, s') ↔ r = Ok a ∧ s' = s.
Proof. unfold lift. split; [by intros [= -> ->] | by intros [-> ->]]. Qed.

(** ** Patching the color table *)

Section color_table.
Context {cmaps : Mpl.Colormaps} {codec : ET.Codec} {plots : Plots} {repr : Repr}
        {dtype : Nib.Datatype}.

Import Cifti.

Lemma same_but_tree_refl self : same_but_tree self self.
Proof. unfold same_but_tree. by destruct self. Qed.

Lemma same_but_tree_trans s1 s2 s3 :
  same_but_tree s1 s2 → same_but_tree s2 s3 → same_but_tree s1 s3.
Proof.
  unfold same_but_tree. intros H12 H23. rewrite H23 at 1. rewrite H12 at 1.
  reflexivity.
Qed.

Lemma set_component_Ok colors ii key k self self' :
  set_component colors ii key k self = (Ok (), self') →
  ∃ t c row,
    ET.at_path (extensions self) label_table = Ok t ∧
    ET.children t !! ii = Some c ∧
    Mpl.rows colors !! (ii - 1) = Some row ∧
    ET.at_path (extensions self') label_table
    = Ok (ET.Element (ET.tag t) (ET.attrib t)
            (<[ii := ET.set key (str (k row)) c]> (ET.children t))) ∧
    same_but_tree self self'.
Proof.
  unfold set_component.
  intros (s0 & s1 & [= <- <-] & Hrest)%bind_M_Ok.
  apply bind_M_Ok in Hrest as (entry & s1 & [Hentry ->]%lift_Ok & Hrest).
  apply bind_M_Ok in Hrest as (row & s1 & [Hrow ->]%lift_Ok & Hrest).
  apply bind_M_Ok in Hrest as (tree & s1 & [Htree ->]%lift_Ok & Hrest).
  injection Hrest as <-.
  destruct (update_path_child _ _ _ _ _ Htree) as (t & c & Ht & Hc & Ht').
  exists t, c, row. apply getitem_Ok in Hrow.
  repeat split; try done.
Qed.

Lemma set_component_total colors ii key k self t c row :
  ET.at_path (extensions self) label_table = Ok t →
  ET.children t !! ii = Some c →
  Mpl.rows colors !! (ii - 1) = Some row →
  ∃ self', set_component colors ii key k self = (Ok (), self').
Proof.
  intros Ht Hc Hrow.
  assert (Hentry : ET.at_path (extensions self) (label_table ++ [ii]) = Ok c).
  { rewrite (at_path_snoc _ _ _ _ Ht). by apply getitem_Ok. }
  destruct (update_path_total (ET.set key (str (k row))) _ _ _ Hentry)
    as [tree Htree].
  exists (set_extensions tree self).
  unfold set_component, bind_M, get_M, lift, modify.
  rewrite Hentry. apply getitem_Ok in Hrow. rewrite Hrow, Htree. reflexivity.
Qed.

(** A statement of the loop body that raises has changed nothing. *)
Lemma set_component_Raise colors ii key k self self' e :
  set_component colors ii key k self = (Raise e, self') → self' = self.
Proof.
  unfold set_component, bind_M, get_M, lift, modify.
  destruct (ET.at_path _ _); [| by intros [= _ <-]].
  destruct (Py.getitem _ _); [| by intros [= _ <-]].
  destruct (ET.update_path _ _ _); [discriminate | by intros [= _ <-]].
Qed.

Lemma set_entry_Ok colors ii self self' :
  set_entry colors ii self = (Ok (), self') →
  ∃ t c row,
    ET.at_path (extensions self) label_table = Ok t ∧
    ET.children t !! ii = Some c ∧
    Mpl.rows colors !! (ii - 1) = Some row ∧
    ET.at_path (extensions self') label_table
    = Ok (ET.Element (ET.tag t) (ET.attrib t)
            (<[ii := patch row c]> (ET.children t))) ∧
    same_but_tree self self'.
Proof.
  unfold set_entry.
  intros ([] & s1 & H1 & Hrest)%bind_M_Ok.
  apply bind_M_Ok in Hrest as ([] & s2 & H2 & Hrest).
  apply bind_M_Ok in Hrest as ([] & s3 & H3 & H4).
  apply set_component_Ok in H1 as (t & c & row & Ht & Hc & Hrow & Ht1 & Hs1).
  apply set_component_Ok in H2 as (t1 & c1 & row1 & Ht1' & Hc1 & Hrow1 & Ht2 & Hs2).
  apply set_component_Ok in H3 as (t2 & c2 & row2 & Ht2' & Hc2 & Hrow2 & Ht3 & Hs3).
  apply set_component_Ok in H4 as (t3 & c3 & row3 & Ht3' & Hc3 & Hrow3 & Ht4 & Hs4).
  assert (Hii : ii < length (ET.children t)) by by eapply lookup_lt_Some.
  rewrite Ht1 in Ht1'. injection Ht1' as <-. cbn [ET.tag ET.attrib ET.children] in *.
  rewrite list_lookup_insert_eq in Hc1 by done. injection Hc1 as <-.
  rewrite Ht2 in Ht2'. injection Ht2' as <-. cbn [ET.tag ET.attrib ET.children] in *.
  rewrite list_insert_insert_eq in *.
  rewrite list_lookup_insert_eq in Hc2 by done. injection Hc2 as <-.
  rewrite Ht3 in Ht3'. injection Ht3' as <-. cbn [ET.tag ET.attrib ET.children] in *.
  rewrite list_insert_insert_eq in *.
  rewrite list_lookup_insert_eq in Hc3 by done. injection Hc3 as <-.
  rewrite list_insert_insert_eq in *.
  assert (row1 = row) as -> by congruence.
  assert (row2 = row) as -> by congruence.
  assert (row3 = row) as -> by congruence.
  exists t, c, row. repeat split; try done.
  eauto using same_but_tree_trans.
Qed.

Lemma set_entry_total colors ii self t c row :
  ET.at_path (extensions self) label_table = Ok t →
  ET.children t !! ii = Some c →
  Mpl.rows colors !! (ii - 1) = Some row →
  ∃ self', set_entry colors ii self = (Ok (), self').
Proof.
  intros Ht Hc Hrow. unfold set_entry.
  assert (Hii : ii < length (ET.children t)) by by eapply lookup_lt_Some.
  destruct (set_component_total colors ii "Red" Mpl.red _ _ _ _ Ht Hc Hrow)
    as [s1 H1].
  destruct (set_component_Ok _ _ _ _ _ _ H1)
    as (t0 & c0 & row0 & Ht0 & _ & _ & Ht1 & _).
  rewrite Ht in Ht0. injection Ht0 as <-.
  destruct (set_component_total colors ii "Green" Mpl.green _ _ _ _ Ht1
              (list_lookup_insert_eq _ _ _ Hii) Hrow) as [s2 H2].
  destruct (set_component_Ok _ _ _ _ _ _ H2)
    as (t1 & c1 & row1 & Ht1' & _ & _ & Ht2 & _).
  rewrite Ht1 in Ht1'. injection Ht1' as <-.
  cbn [ET.tag ET.attrib ET.children] in Ht2.
  assert (Hii1 : ∀ x, ii < length (<[ii := x]> (ET.children t)))
    by (intros x; by rewrite length_insert).
  destruct (set_component_total colors ii "Blue" Mpl.blue _ _ _ _ Ht2
              (list_lookup_insert_eq _ _ _ (Hii1 _)) Hrow) as [s3 H3].
  destruct (set_component_Ok _ _ _ _ _ _ H3)
    as (t2 & c2 & row2 & Ht2' & _ & _ & Ht3 & _).
  rewrite Ht2 in Ht2'. injection Ht2' as <-.
  cbn [ET.tag ET.attrib ET.children] in Ht3.
  assert (Hii2 : ∀ x y, ii < length (<[ii := x]> (<[ii := y]> (ET.children t))))
    by (intros x y; by rewrite !length_insert).
  destruct (set_component_total colors ii "Alpha" Mpl.alpha _ _ _ _ Ht3
              (list_lookup_insert_eq _ _ _ (Hii2 _ _)) Hrow) as [s4 H4].
  exists s4. apply bind_M_Ok. exists (), s1. split; [done |].
  apply bind_M_Ok. exists (), s2. split; [done |].
  apply bind_M_Ok. exists (), s3. by split.
Qed.

(** The loop over a list [l] of distinct entry indices: the label table
    keeps its tag, attributes and length; the entries outside [l] are
    untouched and each entry [j] of [l] is patched from the row [j - 1]. *)
Lemma for_set_entry_Ok colors l : ∀ self self' t,
  NoDup l →
  for_ l (set_entry colors) self = (Ok (), self') →
  ET.at_path (extensions self) label_table = Ok t →
  ∃ t', ET.at_path (extensions self') label_table = Ok t' ∧
        ET.tag t' = ET.tag t ∧ ET.attrib t' = ET.attrib t ∧
        length (ET.children t') = length (ET.children t) ∧
        (∀ j, j ∉ l → ET.children t' !! j = ET.children t !! j) ∧
        (∀ j, j ∈ l → ∃ c row,
           ET.children t !! j = Some c ∧ Mpl.rows colors !! (j - 1) = Some row ∧
           ET.children t' !! j = Some (patch row c)) ∧
        same_but_tree self self'.
Proof.
  induction l as [| ii l IH]; intros self self' t Hnd; cbn [for_].
  - intros [= <-] Ht. exists t. repeat split; try done.
    + intros j Hj. by apply elem_of_nil in Hj.
    + apply same_but_tree_refl.
  - intros ([] & s1 & Hbody & Hloop)%bind_M_Ok Ht.
    apply NoDup_cons in Hnd as [Hii Hnd].
    apply set_entry_Ok in Hbody as (t0 & c & row & Ht0 & Hc & Hrow & Ht1 & Hs1).
    rewrite Ht in Ht0. injection Ht0 as <-.
    destruct (IH _ _ _ Hnd Hloop Ht1)
      as (t' & Ht' & Htag & Hattr & Hlen & Hout & Hin & Hs').
    cbn [ET.tag ET.attrib ET.children] in *.
    exists t'. split; [done |]. split; [done |]. split; [done |].
    split; [by rewrite Hlen, length_insert |]. split; [| split].
    + intros j Hj. apply not_elem_of_cons in Hj as [Hne Hj].
      rewrite (Hout _ Hj). by apply list_lookup_insert_ne.
    + intros j [-> | Hj]%elem_of_cons.
      * exists c, row. split; [done |]. split; [done |].
        rewrite (Hout _ Hii). apply list_lookup_insert_eq.
        by eapply lookup_lt_Some.
      * destruct (Hin _ Hj) as (c' & row' & Hc' & Hrow' & Hpatched).
        exists c', row'. split; [| done].
        rewrite list_lookup_insert_ne in Hc'; [done |].
        intros ->. contradiction.
    + eauto using same_but_tree_trans.
Qed.

Lemma for_set_entry_total colors l : ∀ self t,
  ET.at_path (extensions self) label_table = Ok t →
  (∀ j, j ∈ l → j < length (ET.children t) ∧ j - 1 < length (Mpl.rows colors)) →
  ∃ self', for_ l (set_entry colors) self = (Ok (), self').
Proof.
  induction l as [| ii l IH]; intros self t Ht Hl; cbn [for_].
  - by eexists.
  - destruct (Hl ii) as [Hii Hrow]; [by left |].
    apply lookup_lt_is_Some in Hii as [c Hc].
    apply lookup_lt_is_Some in Hrow as [row Hrow].
    destruct (set_entry_total colors ii self t c row Ht Hc Hrow) as [s1 Hbody].
    destruct (set_entry_Ok _ _ _ _ Hbody)
      as (t0 & c0 & row0 & Ht0 & _ & _ & Ht1 & _).
    rewrite Ht in Ht0. injection Ht0 as <-.
    destruct (IH s1 _ Ht1) as [self' Hloop].
    { intros j Hj. cbn [ET.children]. rewrite length_insert.
      apply Hl. by right. }
    exists self'. apply bind_M_Ok. by exists (), s1.
Qed.

Lemma elem_of_range (lo hi j : nat) : j ∈ range lo hi ↔ lo ≤ j < hi.
Proof. unfold range. rewrite elem_of_seq. lia. Qed.

(** The loop of [set_cmap]. *)
Lemma write_colors_Ok colors self self' :
  write_colors colors self = (Ok (), self') →
  ∃ t t', ET.at_path (extensions self) label_table = Ok t ∧
          ET.at_path (extensions self') label_table = Ok t' ∧
          ET.tag t' = ET.tag t ∧ ET.attrib t' = ET.attrib t ∧
          ET.len t' = ET.len t ∧
          ET.children t' !! 0 = ET.children t !! 0 ∧
          (∀ i, 1 ≤ i < ET.len t → ∃ c row,
             ET.children t !! i = Some c ∧ Mpl.rows colors !! (i - 1) = Some row ∧
             ET.children t' !! i = Some (patch row c)) ∧
          same_but_tree self self'.
Proof.
  unfold write_colors.
  intros (s0 & s1 & [= <- <-] & Hrest)%bind_M_Ok.
  apply bind_M_Ok in Hrest as (t & s1 & [Ht ->]%lift_Ok & Hloop).
  destruct (for_set_entry_Ok _ _ _ _ _ (NoDup_seq _ _) Hloop Ht)
    as (t' & Ht' & Htag & Hattr & Hlen & Hout & Hin & Hs').
  exists t, t'. repeat split; try done.
  - apply Hout. change (0 ∉ range 1 (ET.len t)). rewrite elem_of_range. lia.
  - intros i Hi. apply Hin. by apply elem_of_range.
Qed.

Lemma write_colors_total colors self t :
  ET.at_path (extensions self) label_table = Ok t →
  ET.len t ≤ length (Mpl.rows colors) + 1 →
  ∃ self', write_colors colors self = (Ok (), self').
Proof.
  intros Ht Hlen.
  destruct (for_set_entry_total colors (range 1 (ET.len t)) self t Ht)
    as [self' Hloop].
  { intros j Hj%elem_of_range. unfold ET.len in *. lia. }
  exists self'. unfold write_colors, bind_M, get_M, lift. by rewrite Ht.
Qed.

(** ** Mapping data to colors *)

Lemma sum_length mask : Np.sum mask ≤ length mask.
Proof. unfold Np.sum. induction mask as [| [] mask IH]; cbn; lia. Qed.

(** Row [i] after [rows[mask, :] = values] when every row of [values] is
    [g]: [g] where the mask selects, the old row elsewhere. *)
Lemma putmask_replicate {A} (g : A) (rows : list A) : ∀ mask i,
  length mask = length rows →
  Np.putmask rows mask (replicate (Np.sum mask) g) !! i
  = match mask !! i with
    | Some true => Some g
    | _ => rows !! i
    end.
Proof.
  induction rows as [| r rows IH]; intros [| [] mask] i Hlen;
    try discriminate; [done | |]; cbn in Hlen |- *.
  - destruct i as [| i]; [done |]. cbn. apply IH. lia.
  - destruct i as [| i]; [done |]. cbn. apply IH. lia.
Qed.

Lemma putmask_length {A} (rows : list A) : ∀ mask values,
  length (Np.putmask rows mask values) = length rows.
Proof.
  induction rows as [| r rows IH]; intros [| [] mask] values; cbn; try done.
  - destruct values; cbn; by rewrite IH.
  - by rewrite IH.
Qed.


(** [greys(0.2 * np.ones(k))] is [k] rows of the grey. *)
Lemma nullmap_replicate (greys : Mpl.colormap) (k : nat) :
  map (Mpl.call greys) (Np.scale 0.2%float (Np.ones k))
  = replicate k (Mpl.call greys 0.2%float).
Proof. induction k as [| k IH]; [done |]. cbn. f_equal. exact IH. Qed.

Lemma eq_scalar_lookup (a : list float) (x : float) (i : nat) :
  Np.eq_scalar a x !! i = (λ y, PrimFloat.eqb y x) <$> a !! i.
Proof. unfold Np.eq_scalar. apply list_lookup_fmap. Qed.

Lemma set_zero_to_grey_eq data colors :
  set_zero_to_grey data colors
  = Mpl.setmask colors (Np.eq_scalar data 0%float)
      (replicate (Np.sum (Np.eq_scalar data 0%float))
         (Mpl.call Mpl.Greys 0.2%float)).
Proof.
  unfold set_zero_to_grey. rewrite Mpl.get_cmap_Greys. cbn.
  by rewrite nullmap_replicate.
Qed.

(** The assignment keeps the dtype and the number of rows; it needs a
    two-dimensional array. *)
Lemma setmask_rows colors mask values colors' :
  Mpl.setmask colors mask values = Ok colors' →
  length (Mpl.rows colors') = length (Mpl.rows colors).
Proof.
  destruct colors as [rows | rows |]; cbn; [| | discriminate];
    intros [= <-]; cbn; by rewrite !length_map, putmask_length.
Qed.

Lemma setmask_total colors mask values :
  colors ≠ Mpl.Flat → ∃ colors', Mpl.setmask colors mask values = Ok colors'.
Proof. destruct colors; [by eexists | by eexists | done]. Qed.

Lemma np_array_rows tuples :
  length (Mpl.rows (Mpl.np_array tuples)) = length tuples.
Proof.
  destruct tuples as [| c tuples]; [done |]. unfold Mpl.np_array.
  destruct (forallb _ _); cbn [Mpl.rows]; by rewrite !length_map.
Qed.



Lemma Normalize_call_length norm value normed :
  Mpl.Normalize_call norm value = Ok normed → length normed = length value.
Proof.
  unfold Mpl.Normalize_call.
  destruct (PrimFloat.eqb _ _); [intros [= <-]; apply length_replicate |].
  destruct (PrimFloat.ltb _ _); [discriminate |].
  intros [= <-]. apply length_fmap.
Qed.

(** The general mapping gives one row per scalar and changes nothing but
    the recorded range. *)
Lemma map_data_to_colors_Ok data cmap vrange mappable self general s1 :
  map_data_to_colors data cmap vrange mappable self = (Ok general, s1) →
  length (Mpl.rows general) = length data ∧
  (s1 = self ∨ ∃ vr, s1 = set_vrange (Some vr) self).
Proof.
  unfold map_data_to_colors. destruct mappable as [f |].
  - intros [= <- <-]. split; [| by left].
    by rewrite np_array_rows, length_map.
  - intros (vr & s0 & [Hvr ->]%lift_Ok & Hrest)%bind_M_Ok.
    apply bind_M_Ok in Hrest as ([] & s0 & [= <-] & Hrest).
    apply bind_M_Ok in Hrest as (clr_map & s0 & [Hmap ->]%lift_Ok & Hrest).
    apply lift_Ok in Hrest as [Hrgba ->]. split; [| right; by exists vr].
    unfold Mpl.to_rgba in Hrgba.
    apply bind_Ok in Hrgba as (normed & Hnormed & [= <-]).
    cbn [Mpl.rows]. rewrite !length_map. by eapply Normalize_call_length.
Qed.


(** [set_cmap], block by block. *)
Lemma set_cmap_Ok data cmap vrange mappable self self' :
  set_cmap data cmap vrange mappable self = (Ok (), self') →
  ∃ name vr general colors s1 s2,
    check_cmap cmap = Ok name ∧ check_vrange vrange = Ok vr ∧
    map_data_to_colors data name vr mappable self = (Ok general, s1) ∧
    set_zero_to_grey data general = Ok colors ∧
    write_colors colors s1 = (Ok (), s2) ∧
    self' = set_ischanged true s2.
Proof.
  unfold set_cmap, colors_of.
  intros (name & s0 & [Hname ->]%lift_Ok & Hrest)%bind_M_Ok.
  apply bind_M_Ok in Hrest as (vr & s0 & [Hvr ->]%lift_Ok & Hrest).
  apply bind_M_Ok in Hrest as (colors & s1 & Hcolors & Hrest).
  apply bind_M_Ok in Hcolors as (general & s1' & Hgeneral & [Hgrey ->]%lift_Ok).
  apply bind_M_Ok in Hrest as ([] & s2 & Hwrite & [= <-]).
  by exists name, vr, general, colors, s1', s2.
Qed.

Lemma colors_of_Ok data name vr mappable self general colors s1 :
  map_data_to_colors data name vr mappable self = (Ok general, s1) →
  set_zero_to_grey data general = Ok colors →
  colors_of data name vr mappable self = (Ok colors, s1).
Proof.
  intros Hgeneral Hgrey. unfold colors_of. apply bind_M_Ok.
  exists general, s1. split; [done |]. by apply lift_Ok.
Qed.

Lemma map_data_to_colors_tree data name vr mappable self general s1 :
  map_data_to_colors data name vr mappable self = (Ok general, s1) →
  extensions s1 = extensions self ∧ ischanged s1 = ischanged self ∧
  header s1 = header self.
Proof.
  intros [_ [-> | [vr' ->]]]%map_data_to_colors_Ok; done.
Qed.

(** The rows after the override, in an array of [float64]: grey where the
    scalar is zero, the row of the general mapping elsewhere. *)
Lemma set_zero_to_grey_floats data rows colors :
  length rows = length data →
  set_zero_to_grey data (Mpl.Floats rows) = Ok colors →
  ∃ rows', colors = Mpl.Floats rows' ∧ length rows' = length rows ∧
    ∀ i x, data !! i = Some x →
      rows' !! i = if PrimFloat.eqb x 0%float
                   then Some (Mpl.call Mpl.Greys 0.2%float) else rows !! i.
Proof.
  intros Hlen Hgrey. rewrite set_zero_to_grey_eq in Hgrey.
  injection Hgrey as <-. eexists. split; [done |].
  split; [apply putmask_length |]. intros i x Hx.
  rewrite putmask_replicate.
  - rewrite eq_scalar_lookup, Hx. cbn. by destruct (PrimFloat.eqb x 0%float).
  - unfold Np.eq_scalar. by rewrite length_fmap.
Qed.


(** The one-dimensional empty array stops the override. *)
Lemma set_zero_to_grey_flat data :
  set_zero_to_grey data Mpl.Flat = Raise IndexError.
Proof. by rewrite set_zero_to_grey_eq. Qed.



(** The attributes of a patched entry. *)
Lemma patch_spec (row : Mpl.rgba Np.scalar) (entry : ET.element) :
  ET.attrib (patch row entry) !! "Red" = Some (str (Mpl.red row)) ∧
  ET.attrib (patch row entry) !! "Green" = Some (str (Mpl.green row)) ∧
  ET.attrib (patch row entry) !! "Blue" = Some (str (Mpl.blue row)) ∧
  ET.attrib (patch row entry) !! "Alpha" = Some (str (Mpl.alpha row)) ∧
  (∀ key, key ∉ ["Red"; "Green"; "Blue"; "Alpha"] →
     ET.attrib (patch row entry) !! key = ET.attrib entry !! key) ∧
  ET.tag (patch row entry) = ET.tag entry ∧
  ET.children (patch row entry) = ET.children entry.
Proof.
  unfold patch, ET.set. cbn [ET.attrib ET.tag ET.children].
  repeat split.
  - do 3 (rewrite lookup_insert_ne by done). apply lookup_insert_eq.
  - do 2 (rewrite lookup_insert_ne by done). apply lookup_insert_eq.
  - rewrite lookup_insert_ne by done. apply lookup_insert_eq.
  - apply lookup_insert_eq.
  - intros key Hkey. rewrite !not_elem_of_cons in Hkey.
    destruct Hkey as (? & ? & ? & ? & _).
    by do 4 (rewrite lookup_insert_ne by done).
Qed.

Lemma same_but_tree_fields self self' :
  same_but_tree self self' →
  vrange self' = vrange self ∧ ischanged self' = ischanged self ∧
  header self' = header self ∧ data self' = data self ∧
  data_shape self' = data_shape self ∧ affine self' = affine self.
Proof. unfold same_but_tree. by intros ->. Qed.

(** Without a mappable the range is the data's own minimum and maximum
    when none is given, and the given pair otherwise; the colors are the
    colormap applied to the normalized data. *)
Lemma map_data_to_colors_range data name vrange self general s1 :
  map_data_to_colors data name vrange None self = (Ok general, s1) →
  ∃ lo hi cm normed,
    match vrange with
    | None => Np.min data = Ok lo ∧ Np.max data = Ok hi
    | Some vr => vr = (lo, hi)
    end ∧
    s1 = set_vrange (Some (lo, hi)) self ∧
    Mpl.get_cmap name = Ok cm ∧
    Mpl.Normalize_call (Mpl.mkNormalize lo hi) data = Ok normed ∧
    general = Mpl.Floats (map (Mpl.call cm) normed).
Proof.
  unfold map_data_to_colors.
  intros ([lo hi] & s0 & [Hvr ->]%lift_Ok & Hrest)%bind_M_Ok.
  apply bind_M_Ok in Hrest as ([] & s0 & [= <-] & Hrest).
  apply bind_M_Ok in Hrest as (clr_map & s0 & [Hmap ->]%lift_Ok & Hrest).
  apply lift_Ok in Hrest as [Hrgba ->].
  apply bind_Ok in Hmap as (cm & Hcm & [= <-]).
  apply bind_Ok in Hrgba as (normed & Hnormed & [= <-]).
  exists lo, hi, cm, normed. repeat split; try done.
  destruct vrange as [vr |]; [by injection Hvr |].
  apply bind_Ok in Hvr as (lo' & Hlo & (hi' & Hhi & [= -> ->])%bind_Ok).
  done.
Qed.

(** C6: in [set_cmap] without a mappable, and with a range that the
    validation call hands back as it is, the normalization range recorded
    in [self.vrange] is the data's own [(min, max)] when no range is given
    and the given pair otherwise; the colors of the general mapping are the
    colormap looked up at the normalized scalars, in an array of [float64],
    the normalization being the linear map [(x - vmin) / (vmax - vmin)],
    which sends [vmin] to 0 and [vmax] to 1. *)
Theorem set_cmap_range data cmap vrange self self' :
  check_vrange vrange = Ok vrange →
  set_cmap data cmap vrange None self = (Ok (), self') →
  ∃ lo hi name cm normed,
    match vrange with
    | None => Np.min data = Ok lo ∧ Np.max data = Ok hi
    | Some vr => vr = (lo, hi)
    end ∧
    Cifti.vrange self' = Some (lo, hi) ∧
    check_cmap cmap = Ok name ∧ Mpl.get_cmap name = Ok cm ∧
    Mpl.Normalize_call (Mpl.mkNormalize lo hi) data = Ok normed ∧
    (PrimFloat.ltb lo hi = true →
       normed = map (λ x, ((x - lo) / (hi - lo))%float) data) ∧
    map_data_to_colors data name vrange None self
    = (Ok (Mpl.Floats (map (Mpl.call cm) normed)),
       set_vrange (Some (lo, hi)) self).
Proof.
  intros Hcheck (name & vr & general & colors & s1 & s2 &
          Hname & Hvr & Hgeneral & Hgrey & Hwrite & ->)%set_cmap_Ok.
  rewrite Hcheck in Hvr. injection Hvr as <-.
  destruct (map_data_to_colors_range _ _ _ _ _ _ Hgeneral)
    as (lo & hi & cm & normed & Hrange & -> & Hcm & Hnormed & ->).
  exists lo, hi, name, cm, normed.
  split; [done |]. split.
  { destruct (write_colors_Ok _ _ _ Hwrite) as (_ & _ & _ & _ & _ & _ & _ & _ & _ & Hs).
    apply same_but_tree_fields in Hs as [Hv _]. cbn. by rewrite Hv. }
  do 3 (split; [done |]). split; [| done].
  intros Hlt. rewrite (Normalize_call_linear _ _ _ Hlt) in Hnormed.
  by injection Hnormed as <-.
Qed.

(** C7: whenever [set_cmap] returns, entry 0 of the color table is as it
    was, and every entry [i >= 1] has its ['Red'], ['Green'], ['Blue'] and
    ['Alpha'] attributes set to the strings of the four components of row
    [i - 1] of the computed colors; its other attributes, its tag and its
    children are as they were, and so are the table's length, tag and
    attributes. *)
Theorem set_cmap_patches_entries data cmap vrange mappable self self' :
  set_cmap data cmap vrange mappable self = (Ok (), self') →
  ∃ name vr colors s1 t t',
    check_cmap cmap = Ok name ∧ check_vrange vrange = Ok vr ∧
    colors_of data name vr mappable self = (Ok colors, s1) ∧
    ET.at_path (extensions self) label_table = Ok t ∧
    ET.at_path (extensions self') label_table = Ok t' ∧
    ET.len t' = ET.len t ∧ ET.tag t' = ET.tag t ∧ ET.attrib t' = ET.attrib t ∧
    ET.children t' !! 0 = ET.children t !! 0 ∧
    (∀ i, 1 ≤ i < ET.len t →
       ∃ entry entry' row,
         ET.children t !! i = Some entry ∧
         Mpl.rows colors !! (i - 1) = Some row ∧
         ET.children t' !! i = Some entry' ∧
         ET.attrib entry' !! "Red" = Some (str (Mpl.red row)) ∧
         ET.attrib entry' !! "Green" = Some (str (Mpl.green row)) ∧
         ET.attrib entry' !! "Blue" = Some (str (Mpl.blue row)) ∧
         ET.attrib entry' !! "Alpha" = Some (str (Mpl.alpha row)) ∧
         (∀ key, key ∉ ["Red"; "Green"; "Blue"; "Alpha"] →
            ET.attrib entry' !! key = ET.attrib entry !! key) ∧
         ET.tag entry' = ET.tag entry ∧
         ET.children entry' = ET.children entry).
Proof.
  intros (name & vr & general & colors & s1 & s2 &
          Hname & Hvr & Hgeneral & Hgrey & Hwrite & ->)%set_cmap_Ok.
  destruct (map_data_to_colors_tree _ _ _ _ _ _ _ Hgeneral) as (Htree & _).
  destruct (write_colors_Ok _ _ _ Hwrite)
    as (t & t' & Ht & Ht' & Htag & Hattr & Hlen & Hzero & Hentries & _).
  rewrite Htree in Ht.
  exists name, vr, colors, s1, t, t'.
  do 2 (split; [done |]). split; [by eapply colors_of_Ok |].
  do 6 (split; [done |]).
  intros i Hi. destruct (Hentries i Hi) as (entry & row & Hentry & Hrow & Hpatched).
  exists entry, (patch row entry), row.
  do 3 (split; [done |]). apply patch_spec.
Qed.

(** [set_cmap] returns when the validation calls and the general mapping
    do, the array of colors is two-dimensional, and the color table exists
    and has at most one entry more than there are scalars. *)
Lemma set_cmap_total data cmap vrange mappable self name vr general s1 t :
  check_cmap cmap = Ok name → check_vrange vrange = Ok vr →
  map_data_to_colors data name vr mappable self = (Ok general, s1) →
  general ≠ Mpl.Flat →
  ET.at_path (extensions self) label_table = Ok t →
  ET.len t ≤ length data + 1 →
  ∃ self', set_cmap data cmap vrange mappable self = (Ok (), self').
Proof.
  intros Hname Hvr Hgeneral Hdim Ht Hlen.
  destruct (map_data_to_colors_tree _ _ _ _ _ _ _ Hgeneral) as (Htree & _).
  destruct (map_data_to_colors_Ok _ _ _ _ _ _ _ Hgeneral) as [Hrows _].
  destruct (setmask_total general (Np.eq_scalar data 0%float)
              (replicate (Np.sum (Np.eq_scalar data 0%float))
                 (Mpl.call Mpl.Greys 0.2%float)) Hdim) as [colors Hgrey].
  pose proof (setmask_rows _ _ _ _ Hgrey) as Hcolors.
  rewrite <- set_zero_to_grey_eq in Hgrey.
  destruct (write_colors_total colors s1 t) as [s2 Hwrite].
  { by rewrite Htree. }
  { lia. }
  exists (set_ischanged true s2). unfold set_cmap.
  apply bind_M_Ok. exists name, self. split; [by apply lift_Ok |].
  apply bind_M_Ok. exists vr, self. split; [by apply lift_Ok |].
  apply bind_M_Ok. exists colors, s1. split; [by eapply colors_of_Ok |].
  apply bind_M_Ok. by exists (), s2.
Qed.

(** With a mappable the general mapping always returns. *)
Lemma map_data_to_colors_mappable data name vr f self :
  map_data_to_colors data name vr (Some f) self
  = (Ok (Mpl.np_array (map f data)), self).
Proof. reflexivity. Qed.

(** A table with more entries than there are rows stops the loop with an
    [IndexError]; the entries before have been patched and stay so. *)
Lemma set_component_short colors ii key k self c :
  ET.at_path (extensions self) (label_table ++ [ii]) = Ok c →
  Mpl.rows colors !! (ii - 1) = None →
  set_component colors ii key k self = (Raise IndexError, self).
Proof.
  intros Hentry Hrow. unfold set_component, bind_M, get_M, lift.
  rewrite Hentry. unfold Py.getitem. by rewrite Hrow.
Qed.

(** ** The dirty flag *)

Lemma init_Ok fs image_file self :
  __init__ fs image_file = Ok self →
  ∃ f content,
    fs !! image_file = Some f ∧
    Nib.file_extensions f !! 0 = Some content ∧
    ET.fromstring content = Ok (extensions self) ∧
    self = mk (Nib.file_shape f) (Nib.file_data f) (Nib.file_affine f)
              (Nib.hdr (Nib.from_file f)) (extensions self) None false.
Proof.
  unfold __init__, Nib.load. intros (img & Himg & Hrest)%bind_Ok.
  destruct (fs !! image_file) as [f |]; [| discriminate].
  injection Himg as <-.
  apply bind_Ok in Hrest as (ext & Hext & (tree & Htree & [= <-])%bind_Ok).
  apply getitem_Ok in Hext. cbn in Hext.
  rewrite list_lookup_fmap in Hext.
  destruct (Nib.file_extensions f !! 0) as [content |] eqn:Hcontent; [| discriminate].
  injection Hext as <-. by exists f, content.
Qed.

Lemma init_total fs image_file f content tree :
  fs !! image_file = Some f →
  Nib.file_extensions f !! 0 = Some content →
  ET.fromstring content = Ok tree →
  __init__ fs image_file
  = Ok (mk (Nib.file_shape f) (Nib.file_data f) (Nib.file_affine f)
           (Nib.hdr (Nib.from_file f)) tree None false).
Proof.
  intros Hf Hcontent Htree. unfold __init__, Nib.load. rewrite Hf. cbn.
  unfold Py.getitem. rewrite list_lookup_fmap, Hcontent. cbn. by rewrite Htree.
Qed.

(** What is written of a header does not depend on the attribute [content]
    of its extensions. *)
Lemma assigned_content (exts : list Nib.extension) (ext : Nib.extension)
    (value : option string) :
  exts !! 0 = Some ext →
  map Nib._content (<[0 := Nib.Extension (Nib._content ext) value]> exts)
  = map Nib._content exts.
Proof. destruct exts as [| e exts]; [done |]. by intros [= ->]. Qed.

Lemma loaded_content (contents : list string) :
  map Nib._content (map (λ c, Nib.Extension c None) contents) = contents.
Proof. induction contents as [| c contents IH]; [done |]. cbn. by rewrite IH. Qed.

(** [save] on a changed object: the serialized tree is assigned to the
    attribute [content] of the first header extension, then the image is
    written; the file holds what it would hold without the assignment. *)
Lemma save_changed self fout fs ext :
  ischanged self = true →
  Nib.extensions (header self) !! 0 = Some ext →
  let header' :=
    Nib.Header
      (<[0 := Nib.Extension (Nib._content ext) (Some (ET.tostring (extensions self)))]>
         (Nib.extensions (header self)))
      (Nib.fields (header self)) in
  save self fout fs
  = Ok (set_header header' self,
        <[fout := Nib.to_file
                    (Nib.Image (data_shape self) (data self) (affine self)
                               (header self))]> fs).
Proof.
  intros Hchanged Hext. unfold save, write_extensions.
  rewrite Hchanged. rewrite (proj2 (getitem_Ok _ _ _) Hext). cbn.
  unfold Nib.save, Nib.to_file. cbn. by rewrite assigned_content.
Qed.

(** [save] on an unchanged object writes the image with the header as it
    was loaded. *)
Lemma save_unchanged self fout fs :
  ischanged self = false →
  save self fout fs
  = Ok (self,
        <[fout := Nib.to_file
                    (Nib.Image (data_shape self) (data self) (affine self)
                               (header self))]> fs).
Proof. intros Hunchanged. unfold save. by rewrite Hunchanged. Qed.

(** The file that [save] writes is the same whatever the flag and the
    tree. *)
Lemma save_Ok self fout fs self' fs' :
  save self fout fs = Ok (self', fs') →
  fs' = <[fout := Nib.to_file
                    (Nib.Image (data_shape self) (data self) (affine self)
                               (header self))]> fs ∧
  (if ischanged self
   then ∃ ext,
          Nib.extensions (header self) !! 0 = Some ext ∧
          self' = set_header
                    (Nib.Header
                       (<[0 := Nib.Extension (Nib._content ext)
                                  (Some (ET.tostring (extensions self)))]>
                          (Nib.extensions (header self)))
                       (Nib.fields (header self))) self
   else self' = self).
Proof.
  destruct (ischanged self) eqn:Hflag.
  - destruct (Nib.extensions (header self) !! 0) as [ext |] eqn:Hext.
    + rewrite (save_changed _ _ _ _ Hflag Hext). intros [= <- <-].
      split; [done |]. by exists ext.
    + unfold save, write_extensions, Py.getitem. by rewrite Hflag, Hext.
  - rewrite (save_unchanged _ _ _ Hflag). by intros [= <- <-].
Qed.

(** An object that is loaded, colored and saved: the file written holds
    what the file it was loaded from holds, and loads as that one does. *)
Lemma colored_then_saved
    fs image_file self (scalars : list float) cmap vrange mappable self1 fout
    self2 fs2 :
  __init__ fs image_file = Ok self →
  set_cmap scalars cmap vrange mappable self = (Ok (), self1) →
  save self1 fout fs = Ok (self2, fs2) →
  ∃ f,
    fs !! image_file = Some f ∧
    fs2 = <[fout :=
              Nib.File (Nib.file_shape f)
                (Nib.as_stored (Nib.file_fields f) (Nib.file_data f))
                (Nib.file_affine f) (Nib.file_extensions f)
                (Nib.file_fields f)]> fs ∧
    __init__ fs2 fout
    = Ok (mk (Nib.file_shape f)
             (Nib.as_stored (Nib.file_fields f) (Nib.file_data f))
             (Nib.file_affine f) (Nib.hdr (Nib.from_file f))
             (extensions self) None false).
Proof.
  intros Hinit Hset [-> _]%save_Ok.
  destruct (init_Ok _ _ _ Hinit) as (f & content & Hf & Hcontent & Htree & Hself).
  assert (Himage : data_shape self1 = data_shape self ∧ data self1 = data self ∧
                   affine self1 = affine self ∧ header self1 = header self).
  { apply set_cmap_Ok in Hset
      as (name & vr & general & colors & s1 & s2 & _ & _ & Hgeneral & _ & Hwrite & ->).
    destruct (write_colors_Ok _ _ _ Hwrite)
      as (_ & _ & _ & _ & _ & _ & _ & _ & _ & Hsame).
    apply same_but_tree_fields in Hsame as (_ & _ & Hh & Hd & Hsh & Ha).
    cbn. rewrite Hh, Hd, Hsh, Ha.
    by destruct (map_data_to_colors_Ok _ _ _ _ _ _ _ Hgeneral)
      as [_ [-> | [vr' ->]]]. }
  destruct Himage as (-> & -> & -> & ->). rewrite Hself.
  cbn [data_shape data affine header]. unfold Nib.to_file, Nib.from_file.
  cbn [Nib.dataobj_shape Nib.dataobj Nib.affine Nib.hdr Nib.fields Nib.extensions].
  rewrite loaded_content.
  exists f. split; [done |]. split; [done |].
  etrans.
  { eapply init_total; [apply lookup_insert_eq | exact Hcontent | exact Htree]. }
  reflexivity.
Qed.

(** C8 (the code departs from it): a [Cifti] that [__init__] has
    constructed has [ischanged] False, and a call of [set_cmap] that returns
    leaves it True, as claimed.  But [save] does not put the serialized tree
    into the content of the header extension: when [ischanged] is True it
    assigns the serialized tree to the attribute [content] of the first
    extension, which [get_content()] does not read and which is not
    written; the contents of the extensions are the same after [save] as
    before, and the file written at the output path is the same whether
    [ischanged] is True or False and whatever the tree.  So an object that
    was loaded, colored by [set_cmap] and saved gives a file that holds the
    extensions of the file it was loaded from, and loading that file gives
    the tree as it was before [set_cmap]. *)
Theorem dirty_flag_protocol :
  (∀ fs image_file self,
     __init__ fs image_file = Ok self → ischanged self = false) ∧
  (∀ data cmap vrange mappable self self',
     set_cmap data cmap vrange mappable self = (Ok (), self') →
     ischanged self' = true) ∧
  (∀ self fout fs self' fs',
     save self fout fs = Ok (self', fs') →
     (if ischanged self
      then ∃ ext,
             Nib.extensions (header self) !! 0 = Some ext ∧
             Nib.extensions (header self')
             = <[0 := Nib.Extension (Nib._content ext)
                        (Some (ET.tostring (extensions self)))]>
                 (Nib.extensions (header self))
      else header self' = header self) ∧
     map Nib.get_content (Nib.extensions (header self'))
     = map Nib.get_content (Nib.extensions (header self)) ∧
     fs' = <[fout := Nib.to_file
                       (Nib.Image (data_shape self) (data self) (affine self)
                                  (header self))]> fs) ∧
  (∀ fs image_file self scalars cmap vrange mappable self1 fout self2 fs2,
     __init__ fs image_file = Ok self →
     set_cmap scalars cmap vrange mappable self = (Ok (), self1) →
     save self1 fout fs = Ok (self2, fs2) →
     ∃ f self3,
       fs !! image_file = Some f ∧
       fs2 = <[fout :=
                 Nib.File (Nib.file_shape f)
                   (Nib.as_stored (Nib.file_fields f) (Nib.file_data f))
                   (Nib.file_affine f) (Nib.file_extensions f)
                   (Nib.file_fields f)]> fs ∧
       __init__ fs2 fout = Ok self3 ∧
       extensions self3 = extensions self).
Proof.
  split; [| split; [| split]].
  - intros fs image_file self (f & content & _ & _ & _ & ->)%init_Ok.
    reflexivity.
  - intros data cmap vrange mappable self self' Hset.
    apply set_cmap_Ok in Hset as (_ & _ & _ & _ & _ & s2 & _ & _ & _ & _ & _ & ->).
    reflexivity.
  - intros self fout fs self' fs' [-> Hself']%save_Ok.
    destruct (ischanged self).
    + destruct Hself' as (ext & Hext & ->). cbn. split; [by exists ext |].
      split; [| done]. by apply assigned_content.
    + by subst self'.
  - intros fs image_file self scalars cmap vrange mappable self1 fout self2 fs2
      Hinit Hset Hsave.
    destruct (colored_then_saved _ _ _ _ _ _ _ _ _ _ _ Hinit Hset Hsave)
      as (f & Hf & Hfs2 & Hload).
    by eexists f, _.
Qed.

(** [write_extensions] needs a first header extension to write to; an
    object built by [__init__] has one. *)
Lemma save_total fs image_file self fout fs' :
  __init__ fs image_file = Ok self →
  ∀ self', same_but_tree self self' ∨ same_but_tree self (set_ischanged false self') →
  ∃ r, save self' fout fs' = Ok r.
Proof.
  intros (f & content & _ & Hcontent & _ & Hself)%init_Ok self' Hsame.
  assert (Hh : header self' = header self).
  { destruct Hsame as [Hs | Hs]; apply same_but_tree_fields in Hs as (_ & _ & Hh & _);
      exact Hh. }
  unfold save, write_extensions. destruct (ischanged self'); [| by eexists].
  rewrite Hh, Hself. cbn. unfold Py.getitem.
  rewrite list_lookup_fmap, Hcontent. by eexists.
Qed.
End color_table.

(** ** Calls that raise *)

Lemma bind_M_inv {S A B} (m : M S A) (k : A → M S B) (s s' : S) (r : res B) :
  bind_M m k s = (r, s') →
  (∃ e, m s = (Raise e, s') ∧ r = Raise e) ∨
  (∃ a s1, m s = (Ok a, s1) ∧ k a s1 = (r, s')).
Proof.
  unfold bind_M. destruct (m s) as [[a | e] s1].
  - intros Hk. right. by exists a, s1.
  - intros [= <- <-]. left. by exists e.
Qed.

Section exceptions.
Context {cmaps : Mpl.Colormaps} {codec : ET.Codec} {plots : Plots} {repr : Repr}
        {dtype : Nib.Datatype}.

Import Cifti.

Lemma set_component_frame colors ii key k self r self' :
  set_component colors ii key k self = (r, self') → same_but_tree self self'.
Proof.
  destruct r as [[] | e].
  - by intros (_ & _ & _ & _ & _ & _ & _ & Hs)%set_component_Ok.
  - intros ->%set_component_Raise. apply same_but_tree_refl.
Qed.

Lemma set_entry_frame colors ii self r self' :
  set_entry colors ii self = (r, self') → same_but_tree self self'.
Proof.
  unfold set_entry. intros Hrun.
  do 3 (apply bind_M_inv in Hrun
          as [(? & Hm%set_component_frame & _)
             | ([] & ? & Hm%set_component_frame & Hrun)];
        [done |]; apply (same_but_tree_trans _ _ _ Hm); clear Hm).
  by eapply set_component_frame.
Qed.

Lemma for_set_entry_frame colors l : ∀ self r self',
  for_ l (set_entry colors) self = (r, self') → same_but_tree self self'.
Proof.
  induction l as [| ii l IH]; intros self r self'; cbn [for_].
  - intros [= _ <-]. apply same_but_tree_refl.
  - intros [(e & Hm%set_entry_frame & _)
           | ([] & s1 & Hm%set_entry_frame & Hrun)]%bind_M_inv; [done |].
    apply (same_but_tree_trans _ _ _ Hm). by eapply IH.
Qed.

Lemma write_colors_frame colors self r self' :
  write_colors colors self = (r, self') → same_but_tree self self'.
Proof.
  unfold write_colors, bind_M, get_M, lift.
  destruct (ET.at_path _ _) as [t | e].
  - apply for_set_entry_frame.
  - intros [= _ <-]. apply same_but_tree_refl.
Qed.

Lemma map_data_to_colors_flag data name vr mappable self r s1 :
  map_data_to_colors data name vr mappable self = (r, s1) →
  ischanged s1 = ischanged self.
Proof.
  unfold map_data_to_colors, bind_M, lift, modify, ret_M.
  destruct mappable as [f |]; [by intros [= _ <-] |].
  destruct (match vr with Some _ => _ | None => _ end) as [v | e];
    [| by intros [= _ <-]].
  destruct (Mpl.new_ScalarMappable _ _); by intros [= _ <-].
Qed.

(** A call of [set_cmap] that raises leaves the flag as it was, also when
    the loop has already patched some entries. *)
Lemma set_cmap_Raise data cmap vrange mappable self e self' :
  set_cmap data cmap vrange mappable self = (Raise e, self') →
  ischanged self' = ischanged self.
Proof.
  unfold set_cmap, colors_of. intros Hrun.
  apply bind_M_inv in Hrun as [(? & [= _ <-] & _) | (name & ? & [= _ <-] & Hrun)];
    [done |].
  apply bind_M_inv in Hrun as [(? & [= _ <-] & _) | (vr & ? & [= _ <-] & Hrun)];
    [done |].
  apply bind_M_inv in Hrun as [(? & Hcolors & _) | (colors & s1 & Hcolors & Hrun)].
  - apply bind_M_inv in Hcolors
      as [(? & Hgeneral & _) | (general & ? & Hgeneral & [= _ <-])];
      by eapply map_data_to_colors_flag.
  - apply bind_M_inv in Hcolors
      as [(? & _ & [=]) | (general & ? & Hgeneral & [= _ <-])].
    apply map_data_to_colors_flag in Hgeneral.
    apply bind_M_inv in Hrun as [(? & Hwrite & _) | ([] & s2 & Hwrite & [=])].
    apply write_colors_frame, same_but_tree_fields in Hwrite as (_ & Hflag & _).
    congruence.
Qed.

End exceptions.

(** ** Strings and paths *)

Lemma string_length_app (a b : string) :
  String.length (a +:+ b) = String.length a + String.length b.
Proof.
  induction a as [| c a IH]; [done |].
  change (String c a +:+ b) with (String c (a +:+ b)). cbn. by rewrite IH.
Qed.

Lemma substring_length_le (s : string) : ∀ k n,
  String.length (String.substring k n s) ≤ String.length s - k.
Proof.
  induction s as [| c s IH]; intros [| k] [| n]; cbn; try lia.
  - specialize (IH 0 n). lia.
  - apply IH.
  - apply IH.
Qed.

Lemma last_chars_app (n : nat) (a b : string) :
  n ≤ String.length b → Py.last_chars n (a +:+ b) = Py.last_chars n b.
Proof.
  intros Hn. unfold Py.last_chars. induction a as [| c a IH]; [done |].
  change (String c a +:+ b) with (String c (a +:+ b)).
  cbn [String.length]. rewrite string_length_app in *.
  replace (S (String.length a + String.length b) - n)
    with (S (String.length a + String.length b - n)) by lia.
  cbn. exact IH.
Qed.

Lemma endswith_length (p s : string) :
  Py.endswith p s = true → String.length p ≤ String.length s.
Proof.
  unfold Py.endswith, Py.last_chars. intros Hp%bool_decide_eq_true.
  pose proof (substring_length_le s (String.length s - String.length p)
                (String.length p)) as Hle.
  rewrite Hp in Hle. lia.
Qed.

Lemma endswith_app (p a b : string) :
  Py.endswith p b = true → Py.endswith p (a +:+ b) = true.
Proof.
  intros Hp. pose proof (endswith_length _ _ Hp) as Hlen.
  unfold Py.endswith in *. by rewrite last_chars_app.
Qed.






(** ** Writing images *)

Section writers_properties.
Context {cmaps : Mpl.Colormaps} {codec : ET.Codec} {plots : Plots} {repr : Repr}
        {dtype : Nib.Datatype} {consts : Constants}.

(** C4 (the code departs from it): [write_parcellated_image] never calls
    [check_pscalars_unilateral]; a vector of length 1 is broadcast by the
    slice assignment over the 180 entries of its hemisphere, and the call
    goes on exactly as it does for the vector of 180 copies of that
    value. *)
Theorem write_parcellated_image_broadcasts
    (x : float) (fout : string) (vrange : option (float * float))
    (cmap : option string) (fs : Nib.files) :
  map_unilateral_to_bilateral [x] (Some "left")
  = Ok (replicate 180 x ++ Np.zeros 180) ∧
  map_unilateral_to_bilateral [x] (Some "right")
  = Ok (Np.zeros 180 ++ replicate 180 x) ∧
  write_parcellated_image [x] fout (Some "left") vrange cmap fs
  = write_parcellated_image (replicate 180 x) fout (Some "left") vrange cmap fs ∧
  write_parcellated_image [x] fout (Some "right") vrange cmap fs
  = write_parcellated_image (replicate 180 x) fout (Some "right") vrange cmap fs.
Proof.
  split; [apply broadcast_left |]. split; [apply broadcast_right |].
  unfold write_parcellated_image.
  rewrite broadcast_left, broadcast_right.
  rewrite (pad_left (replicate 180 x)) by apply length_replicate.
  rewrite (pad_right (replicate 180 x)) by apply length_replicate.
  done.
Qed.

(** The name under which the image is saved ends in [.dscalar.nii]. *)
Lemma dense_name_spec (fout : string) :
  dense_name fout
  = (if bool_decide (Py.last_chars 12 fout = ".dscalar.nii")
     then fout else fout +:+ ".dscalar.nii") ∧
  Py.endswith ".dscalar.nii" (dense_name fout) = true.
Proof.
  unfold dense_name.
  destruct (decide (Py.last_chars 12 fout = ".dscalar.nii")) as [Heq | Hne].
  - rewrite (bool_decide_eq_false_2 _ (λ Hn, Hn Heq)).
    rewrite (bool_decide_eq_true_2 _ Heq). split; [done |].
    unfold Py.endswith. by apply bool_decide_eq_true_2.
  - rewrite (bool_decide_eq_true_2 _ Hne).
    rewrite (bool_decide_eq_false_2 _ Hne). split; [done |].
    by apply endswith_app.
Qed.



(** [write_dense_image], step by step. *)
Lemma write_dense_image_Ok dscalars fout savedir w w' :
  write_dense_image dscalars fout savedir w = (Ok (), w') →
  ∃ a values tmpl σ1 σ2 new_data temp_data,
    dscalars = PyNdarray a ∧ Np.shape a = [91282%N] ∧
    fst w !! Np.buffer a = Some values ∧
    Np.array (Np.shape a) values (fst w) = (new_data, σ1) ∧
    snd w !! DSCALAR_FILE = Some tmpl ∧
    Np.array (Nib.file_shape tmpl) (Nib.file_data tmpl) σ1 = (temp_data, σ2) ∧
    Np.size_of (Nib.file_shape tmpl) = 91282%N ∧
    w' = (σ2,
          <[Py.join savedir (dense_name fout) :=
              Nib.File (Nib.file_shape tmpl)
                (Nib.as_stored (Nib.file_fields tmpl) values)
                (Nib.file_affine tmpl) (Nib.file_extensions tmpl)
                (Nib.file_fields tmpl)]> (snd w)).
Proof.
  destruct w as [σ fs]. unfold write_dense_image.
  intros ([] & w0 & [Hcheck ->]%lift_Ok & Hrest)%bind_M_Ok.
  destruct dscalars as [| | | | a]; try discriminate.
  assert (Hshape : Np.shape a = [91282%N]).
  { apply one_dimensional. unfold check_dscalars in Hcheck.
    repeat (destruct (decide _)); try discriminate.
    split; by apply dec_stable. }
  apply bind_M_Ok in Hrest as (new_data & w1 & Hcopy & Hrest).
  apply bind_M_Ok in Hrest as (tmpl & w2 & Hload & Hrest).
  apply bind_M_Ok in Hrest as (temp_data & w3 & Harray & Hrest).
  apply bind_M_Ok in Hrest as (data_to_write & w4 & [Hreshape ->]%lift_Ok & Hrest).
  apply bind_M_Ok in Hrest as (values' & w5 & Hvalues & Hrest).
  cbn [fst snd] in *. unfold Np.copy in Hcopy.
  destruct (σ !! Np.buffer a) as [values |] eqn:Hbuf; [| discriminate].
  unfold Np.array in *. injection Hcopy as <- <-.
  unfold Nib.load in Hload. cbn [snd] in Hload.
  destruct (fs !! DSCALAR_FILE) as [tmpl' |] eqn:Htmpl; [| discriminate].
  injection Hload as <- <-. cbn [fst snd] in Harray. injection Harray as <- <-.
  unfold Np.reshape in Hreshape. cbn [Np.shape Np.buffer] in Hreshape.
  destruct (decide _) as [Hsize |]; [| discriminate].
  injection Hreshape as <-. cbn [fst snd Np.shape Np.buffer] in Hvalues.
  assert (Hnew : (<[fresh (dom (<[fresh (dom σ) := values]> σ)) := Nib.file_data tmpl']>
                    (<[fresh (dom σ) := values]> σ)) !! fresh (dom σ) = Some values).
  { rewrite lookup_insert_ne; [apply lookup_insert_eq |].
    intros Heq. pose proof (is_fresh (dom (<[fresh (dom σ) := values]> σ))) as Hfresh.
    rewrite Heq in Hfresh. apply Hfresh. set_solver. }
  rewrite Hnew in Hvalues. injection Hvalues as <- <-.
  unfold modify in Hrest. injection Hrest as <-. cbn [fst snd Np.shape].
  unfold Nib.save, Nib.to_file.
  cbn [Nib.dataobj_shape Nib.dataobj Nib.affine Nib.hdr Nib.fields Nib.extensions
       Nib.from_file].
  rewrite loaded_content.
  eexists a, values, tmpl', _, _, _, _.
  split; [done |]. split; [done |]. split; [done |]. split; [done |].
  split; [done |]. split; [done |]. split; [| done].
  rewrite Hsize. unfold Np.size. by rewrite Hshape.
Qed.

(** The stores that a run of [write_dense_image] can reach: the initial
    one, or that one with the buffer of the copy, or with the buffers of the
    copy and of the template data. *)
Lemma write_dense_image_store dscalars fout savedir σ fs r w' :
  write_dense_image dscalars fout savedir (σ, fs) = (r, w') →
  fst w' = σ ∨
  ∃ a values,
    dscalars = PyNdarray a ∧ σ !! Np.buffer a = Some values ∧
    let σ1 := <[fresh (dom σ) := values]> σ in
    fst w' = σ1 ∨ ∃ values', fst w' = <[fresh (dom σ1) := values']> σ1.
Proof.
  unfold write_dense_image, bind_M, lift, modify.
  destruct (check_dscalars dscalars) as [[] | e]; [| intros [= _ <-]; by left].
  destruct dscalars as [| | | | a]; try (intros [= _ <-]; by left).
  unfold Np.copy, Np.array. cbn [fst snd].
  destruct (σ !! Np.buffer a) as [values |] eqn:Hbuf; [| intros [= _ <-]; by left].
  cbn [fst snd]. intros Hrun. right. exists a, values.
  split; [done |]. split; [done |]. cbn zeta. revert Hrun.
  destruct (Nib.load fs DSCALAR_FILE) as [tmpl | e]; [| intros [= _ <-]; by left].
  destruct (Np.reshape _ _) as [data_to_write | e];
    [| intros [= _ <-]; right; by eexists].
  destruct (_ !! Np.buffer data_to_write); intros [= _ <-]; right; by eexists.
Qed.

Lemma insert_fresh_subseteq (σ : Np.store) (values : list float) :
  σ ⊆ <[fresh (dom σ) := values]> σ.
Proof. apply insert_subseteq, not_elem_of_dom, is_fresh. Qed.

(** C10: [write_dense_image] does not mutate the array it is given:
    whether the call returns or raises, the buffer of [dscalars] holds
    after the call what it held before, as does every buffer that existed
    before the call; the data written are in a buffer of their own, made
    by [np.copy]. *)
Theorem write_dense_image_keeps_input
    (dscalars : pyobj) (fout savedir : string) (σ : Np.store) (fs : Nib.files) :
  σ ⊆ fst (snd (write_dense_image dscalars fout savedir (σ, fs))) ∧
  match dscalars with
  | PyNdarray a =>
      fst (snd (write_dense_image dscalars fout savedir (σ, fs))) !! Np.buffer a
      = σ !! Np.buffer a
  | _ => fst (snd (write_dense_image dscalars fout savedir (σ, fs))) = σ
  end.
Proof.
  destruct (write_dense_image dscalars fout savedir (σ, fs)) as [r w'] eqn:Hrun.
  cbn [snd]. apply write_dense_image_store in Hrun.
  assert (Hsub : σ ⊆ fst w').
  { destruct Hrun as [-> | (a & values & _ & _ & [-> | [values' ->]])]; [done | |].
    - apply insert_fresh_subseteq.
    - etrans; apply insert_fresh_subseteq. }
  split; [exact Hsub |].
  destruct dscalars as [| | | | a];
    try (destruct Hrun as [-> | (a' & values & [=] & _)]; done).
  destruct Hrun as [-> | (a' & values & [= <-] & Hbuf & _)]; [done |].
  rewrite Hbuf. by eapply lookup_weaken.
Qed.


(** [write_dense_image] returns when the argument is a live
    one-dimensional array of 91282 elements and the template file exists
    and holds as many. *)
Lemma write_dense_image_total buf values tmpl fout savedir σ fs :
  σ !! buf = Some values →
  fs !! DSCALAR_FILE = Some tmpl →
  Np.size_of (Nib.file_shape tmpl) = 91282%N →
  ∃ w', write_dense_image (PyNdarray (Np.Ndarray [91282%N] buf)) fout savedir (σ, fs)
        = (Ok (), w').
Proof.
  intros Hbuf Htmpl Hsize.
  unfold write_dense_image, bind_M, lift, modify.
  change (check_dscalars _) with (@Ok unit ()). cbn iota.
  unfold Np.copy, Np.array, Nib.load. cbn [fst snd Np.buffer Np.shape].
  rewrite Hbuf. cbn [fst snd]. rewrite Htmpl.
  unfold Np.reshape. cbn [Np.shape Np.buffer Nib.dataobj_shape Nib.from_file].
  rewrite Hsize. change (Np.size _) with 91282%N.
  destruct (decide _) as [_ | []]; [| done]. cbn [Np.buffer fst snd].
  rewrite lookup_insert_ne; [rewrite lookup_insert_eq; by eexists |].
  intros Heq. pose proof (is_fresh (dom (<[fresh (dom σ) := values]> σ))) as Hfresh.
  rewrite Heq in Hfresh. apply Hfresh. set_solver.
Qed.
End writers_properties.

(** ** Runs in the concrete setting *)

Example demo_set_cmap :
  Cifti.set_cmap (cmaps := Demo.cmaps) (plots := Demo.plots) (repr := Demo.repr)
    Demo.data None None None Demo.cifti
  = (Ok (), Demo.cifti_after).
Proof. vm_compute. reflexivity. Qed.



Lemma set_cmap_range_witness :
  Cifti.set_cmap (cmaps := Demo.cmaps) (plots := Demo.plots) (repr := Demo.repr)
    Demo.data None None None Demo.cifti
  = (Ok (), Demo.cifti_after) ∧
  Cifti.vrange Demo.cifti_after = Some (0%float, 0.5%float).
Proof.
  assert (Hrun :
    Cifti.set_cmap (cmaps := Demo.cmaps) (plots := Demo.plots) (repr := Demo.repr)
      Demo.data None None None Demo.cifti
    = (Ok (), Demo.cifti_after)) by (vm_compute; reflexivity).
  split; [exact Hrun |].
  destruct (set_cmap_range (cmaps := Demo.cmaps) (plots := Demo.plots)
              (repr := Demo.repr) Demo.data None None Demo.cifti Demo.cifti_after
              eq_refl Hrun)
    as (lo & hi & name & cm & normed & [Hlo Hhi] & Hvrange & _).
  vm_compute in Hlo, Hhi. injection Hlo as <-. injection Hhi as <-.
  exact Hvrange.
Defined.

Lemma set_cmap_patches_entries_witness :
  Cifti.set_cmap (cmaps := Demo.cmaps) (plots := Demo.plots) (repr := Demo.repr)
    Demo.data None None None Demo.cifti
  = (Ok (), Demo.cifti_after) ∧
  ∃ t', ET.at_path (Cifti.extensions Demo.cifti_after) Cifti.label_table = Ok t' ∧
        ET.len t' = 3 ∧
        ET.children t' !! 0 = Some (Demo.entry "0").
Proof.
  assert (Hrun :
    Cifti.set_cmap (cmaps := Demo.cmaps) (plots := Demo.plots) (repr := Demo.repr)
      Demo.data None None None Demo.cifti
    = (Ok (), Demo.cifti_after)) by (vm_compute; reflexivity).
  split; [exact Hrun |].
  destruct (set_cmap_patches_entries (cmaps := Demo.cmaps) (plots := Demo.plots)
              (repr := Demo.repr) _ _ _ _ _ _ Hrun)
    as (name & vr & colors & s1 & t & t' & _ & _ & _ & Ht & Ht' & Hlen & _ & _ & Hzero & _).
  assert (Htable : t = Demo.table) by (vm_compute in Ht; by injection Ht).
  exists t'. split; [exact Ht' |]. rewrite Hlen, Hzero, Htable. by split.
Defined.

(** The entries of the demo table after the call: the first parcel is
    masked and is grey, the second is at the top of the range. *)
Example demo_entries :
  ET.at_path (Cifti.extensions Demo.cifti_after) Cifti.label_table
  = Ok (ET.Element "LabelTable" ∅
          [Demo.entry "0";
           ET.Element "Label"
             {[ "Key" := "1"; "Red" := "0.2"; "Green" := "0.2"; "Blue" := "0.2";
                "Alpha" := "1.0" ]} [];
           ET.Element "Label"
             {[ "Key" := "2"; "Red" := "1.0"; "Green" := "1.0"; "Blue" := "1.0";
                "Alpha" := "1.0" ]} []]).
Proof. vm_compute. reflexivity. Qed.

(** The template loaded, colored and saved: the first parcel is ['1.0'] in
    the template and ['0.2'] in the colored tree; the file written is the
    template, and loading it gives the tree of the template. *)
Lemma dirty_flag_protocol_witness :
  Cifti.__init__ (codec := Demo.codec) Demo.labels "/templates/parcels.dlabel.nii"
  = Ok Demo.cifti ∧
  Cifti.set_cmap (cmaps := Demo.cmaps) (plots := Demo.plots) (repr := Demo.repr)
    Demo.data None None None Demo.cifti
  = (Ok (), Demo.cifti_after) ∧
  Demo.first_red (Cifti.extensions Demo.cifti) = "1.0" ∧
  Demo.first_red (Cifti.extensions Demo.cifti_after) = "0.2" ∧
  Cifti.save (codec := Demo.codec) (dtype := Demo.dtype)
    Demo.cifti_after "/data/out.dlabel.nii" Demo.labels
  = Ok (fst Demo.colored, snd Demo.colored) ∧
  snd Demo.colored !! "/data/out.dlabel.nii" = Some Demo.dlabel ∧
  ∃ self3,
    Cifti.__init__ (codec := Demo.codec) (snd Demo.colored) "/data/out.dlabel.nii"
    = Ok self3 ∧
    Demo.first_red (Cifti.extensions self3) = "1.0".
Proof.
  assert (Hinit :
    Cifti.__init__ (codec := Demo.codec) Demo.labels "/templates/parcels.dlabel.nii"
    = Ok Demo.cifti) by (vm_compute; reflexivity).
  assert (Hset :
    Cifti.set_cmap (cmaps := Demo.cmaps) (plots := Demo.plots) (repr := Demo.repr)
      Demo.data None None None Demo.cifti
    = (Ok (), Demo.cifti_after)) by (vm_compute; reflexivity).
  assert (Hsave :
    Cifti.save (codec := Demo.codec) (dtype := Demo.dtype)
      Demo.cifti_after "/data/out.dlabel.nii" Demo.labels
    = Ok (fst Demo.colored, snd Demo.colored)) by (vm_compute; reflexivity).
  do 2 (split; [done |]). do 2 (split; [vm_compute; reflexivity |]).
  split; [done |].
  destruct (dirty_flag_protocol (cmaps := Demo.cmaps) (codec := Demo.codec)
              (plots := Demo.plots) (repr := Demo.repr) (dtype := Demo.dtype))
    as (_ & _ & _ & Hround).
  destruct (Hround _ _ _ _ _ _ _ _ _ _ _ Hinit Hset Hsave)
    as (f & self3 & Hf & Hfs2 & Hload & Htree).
  assert (Some f = Some Demo.dlabel) as [= ->]
    by (rewrite <- Hf; vm_compute; reflexivity).
  split; [rewrite Hfs2; apply lookup_insert_eq |].
  exists self3. split; [exact Hload |]. rewrite Htree. vm_compute. reflexivity.
Defined.

Lemma demo_dense_returns (fout savedir : string) :
  ∃ w', write_dense_image (dtype := Demo.dtype) (consts := Demo.consts) Demo.dscalars fout savedir
          (Demo.store, Demo.files)
        = (Ok (), w').
Proof.
  apply (write_dense_image_total (dtype := Demo.dtype) (consts := Demo.consts) _ Demo.dense Demo.dscalar).
  - apply lookup_singleton_eq.
  - unfold Demo.files. rewrite lookup_insert_ne by done. apply lookup_insert_eq.
  - reflexivity.
Qed.



(** A left-hemisphere vector of length 1 goes through
    [write_parcellated_image] without an error. *)
Example demo_write_parcellated_image_length_1 :
  Py.bind
    (write_parcellated_image (cmaps := Demo.cmaps) (codec := Demo.codec)
       (plots := Demo.plots) (repr := Demo.repr) (dtype := Demo.dtype)
       (consts := Demo.consts)
       [5%float] "/data/out.dlabel.nii" (Some "left") None None Demo.files)
    (λ fs, Ok (dom fs))
  = Ok {[ "/templates/parcels.dlabel.nii"; "/templates/dense.dscalar.nii";
          "/data/out.dlabel.nii" ]}.
Proof. vm_compute. reflexivity. Qed.

(** While a vector of length 2 is refused by the slice assignment. *)
Example demo_write_parcellated_image_length_2 :
  write_parcellated_image (cmaps := Demo.cmaps) (codec := Demo.codec)
    (plots := Demo.plots) (repr := Demo.repr) (dtype := Demo.dtype)
       (consts := Demo.consts)
    [5%float; 6%float] "/data/out.dlabel.nii" (Some "left") None None Demo.files
  = Raise ValueError.
Proof. vm_compute. reflexivity. Qed.

(** * Further properties *)

(** ** The validators *)

Lemma check_size_spec (n : N) (check : pyobj → res unit) :
  (∀ o, check o
        = match o with
          | PyNdarray a =>
              if decide (Np.ndim a ≠ 1%N) then Raise RuntimeError
              else if decide (Np.size a ≠ n) then Raise RuntimeError
              else Ok ()
          | _ => Raise RuntimeError
          end) →
  ∀ o, (check o = Ok () ↔ ∃ buf, o = PyNdarray (Np.Ndarray [n] buf)) ∧
       (check o ≠ Ok () ↔ check o = Raise RuntimeError).
Proof.
  intros Hcheck o. rewrite Hcheck. split.
  - split.
    + destruct o as [| | | | [shp buf]]; try discriminate.
      repeat (destruct (decide _)); try discriminate. intros _.
      assert (Hshape : Np.shape (Np.Ndarray shp buf) = [n]).
      { apply one_dimensional. split; by apply dec_stable. }
      cbn in Hshape. subst shp. by exists buf.
    + intros [buf ->].
      destruct (one_dimensional (Np.Ndarray [n] buf) n) as [_ [Hdim Hsize]];
        [done |].
      repeat (destruct (decide _)); [contradiction.. | reflexivity].
  - destruct o as [| | | | a]; try (split; [reflexivity | discriminate]).
    repeat (destruct (decide _));
      (split; [try reflexivity; intros []; reflexivity | try discriminate; intros [=]]).
Qed.

(** X1: [check_dscalars] returns exactly for the one-dimensional ndarrays
    of 91282 elements, and raises [RuntimeError] for every other object
    (not an ndarray, another number of dimensions, another size). *)
Theorem check_dscalars_spec (dscalars : pyobj) :
  (check_dscalars dscalars = Ok () ↔
     ∃ buf, dscalars = PyNdarray (Np.Ndarray [91282%N] buf)) ∧
  (check_dscalars dscalars ≠ Ok () ↔
     check_dscalars dscalars = Raise RuntimeError).
Proof. by apply check_size_spec. Qed.

(** X2: [check_pscalars_bilateral] returns exactly for the one-dimensional
    ndarrays of 360 elements, and raises [RuntimeError] for every other
    object. *)
Theorem check_pscalars_bilateral_spec (pscalars : pyobj) :
  (check_pscalars_bilateral pscalars = Ok () ↔
     ∃ buf, pscalars = PyNdarray (Np.Ndarray [360%N] buf)) ∧
  (check_pscalars_bilateral pscalars ≠ Ok () ↔
     check_pscalars_bilateral pscalars = Raise RuntimeError).
Proof. by apply check_size_spec. Qed.

(** ** Hemisphere tags *)

(** X3: normalizing a hemisphere tag twice is the same as normalizing it
    once: what [check_hemisphere] returns (['left'], ['right'] or None) it
    accepts and returns as it is, and a refused tag stays refused. *)
Theorem check_hemisphere_idempotent (hemisphere : option string) :
  check_hemisphere hemisphere ≫= check_hemisphere = check_hemisphere hemisphere.
Proof.
  destruct (check_hemisphere hemisphere) as [r | e] eqn:Hr; [| done].
  by destruct (check_hemisphere_range _ _ Hr) as [-> | [-> | ->]].
Qed.

Lemma check_hemisphere_fixed (h r : option string) :
  check_hemisphere h = Ok r → check_hemisphere r = Ok r.
Proof. by intros [-> | [-> | ->]]%check_hemisphere_range. Qed.

Lemma map_unilateral_to_bilateral_normal (v : list float) (h r : option string) :
  check_hemisphere h = Ok r →
  map_unilateral_to_bilateral v h = map_unilateral_to_bilateral v r.
Proof.
  intros Hr. unfold map_unilateral_to_bilateral.
  by rewrite Hr, (check_hemisphere_fixed _ _ Hr).
Qed.

(** X4: [map_unilateral_to_bilateral] sees its tag only through
    [check_hemisphere]: every accepted spelling pads as its normal form
    does (['l'] and ['L'] as ['left'], ['r'] and ['R'] as ['right'], ['lr']
    and ['LR'] as None), and every other tag raises the [ValueError] of
    [check_hemisphere], whatever the vector. *)
Theorem map_unilateral_to_bilateral_by_tag (v : list float) (h : option string) :
  map_unilateral_to_bilateral v h
  = check_hemisphere h ≫= map_unilateral_to_bilateral v.
Proof.
  destruct (check_hemisphere h) as [r | e] eqn:Hr.
  - by apply map_unilateral_to_bilateral_normal.
  - unfold map_unilateral_to_bilateral. by rewrite Hr.
Qed.

(** X5: whenever a vector is padded into one hemisphere (the tag
    normalizes to ['left'] or ['right'] and the call returns), the vector
    had 180 entries, or a single one, which is repeated 180 times; the
    result has 360 entries: that half in its hemisphere and zeros in the
    other. *)
Theorem map_unilateral_to_bilateral_shape
    (v r : list float) (hemisphere : option string) (side : string) :
  check_hemisphere hemisphere = Ok (Some side) →
  map_unilateral_to_bilateral v hemisphere = Ok r →
  ∃ half,
    (half = v ∧ length v = 180 ∨ ∃ x, v = [x] ∧ half = replicate 180 x) ∧
    (side = "left" ∧ r = half ++ Np.zeros 180 ∨
     side = "right" ∧ r = Np.zeros 180 ++ half) ∧
    length r = 360.
Proof.
  intros Htag Hrun.
  rewrite (map_unilateral_to_bilateral_normal _ _ _ Htag) in Hrun.
  assert (Hcases : length v = 180 ∨ (∃ x, v = [x]) ∨ (length v ≠ 180 ∧ length v ≠ 1)).
  { destruct (decide (length v = 180)); [by left |]. right.
    destruct v as [| x [| y v']]; cbn in *;
      [right; lia | left; by exists x | right; lia]. }
  destruct (check_hemisphere_range _ _ Htag) as [[= ->] | [[= ->] | [=]]].
  - destruct Hcases as [Hlen | [[x ->] | [H180 H1]]].
    + rewrite pad_left in Hrun by done.
      assert (r = v ++ Np.zeros 180) as -> by congruence.
      exists v. split; [by left |]. split; [by left |].
      rewrite length_app, zeros_length. lia.
    + rewrite broadcast_left in Hrun.
      assert (r = replicate 180 x ++ Np.zeros 180) as -> by congruence.
      exists (replicate 180 x). split; [right; by exists x |]. split; [by left |].
      rewrite length_app, zeros_length, length_replicate. lia.
    + by rewrite (map_unilateral_to_bilateral_mismatch v "left") in Hrun by auto.
  - destruct Hcases as [Hlen | [[x ->] | [H180 H1]]].
    + rewrite pad_right in Hrun by done.
      assert (r = Np.zeros 180 ++ v) as -> by congruence.
      exists v. split; [by left |]. split; [by right |].
      rewrite length_app, zeros_length. lia.
    + rewrite broadcast_right in Hrun.
      assert (r = Np.zeros 180 ++ replicate 180 x) as -> by congruence.
      exists (replicate 180 x). split; [right; by exists x |]. split; [by right |].
      rewrite length_app, zeros_length, length_replicate. lia.
    + by rewrite (map_unilateral_to_bilateral_mismatch v "right") in Hrun by auto.
Qed.

Lemma map_unilateral_to_bilateral_shape_witness :
  ∃ half,
    (half = [2%float] ∧ length [2%float] = 180 ∨
     ∃ x, [2%float] = [x] ∧ half = replicate 180 x) ∧
    (("right" : string) = "left" ∧
       Np.zeros 180 ++ replicate 180 2%float = half ++ Np.zeros 180 ∨
     ("right" : string) = "right" ∧
       Np.zeros 180 ++ replicate 180 2%float = Np.zeros 180 ++ half) ∧
    length (Np.zeros 180 ++ replicate 180 2%float) = 360.
Proof.
  apply (map_unilateral_to_bilateral_shape [2%float] _ (Some "R") "right").
  - reflexivity.
  - vm_compute. reflexivity.
Defined.

(** X6: a vector padded into one hemisphere whose length is neither 180
    nor 1 is refused: the slice assignment raises [ValueError]. *)
Theorem map_unilateral_to_bilateral_wrong_length
    (v : list float) (hemisphere : option string) (side : string) :
  check_hemisphere hemisphere = Ok (Some side) →
  length v ≠ 180 → length v ≠ 1 →
  map_unilateral_to_bilateral v hemisphere = Raise ValueError.
Proof.
  intros Htag H180 H1.
  rewrite (map_unilateral_to_bilateral_normal _ _ _ Htag).
  destruct (check_hemisphere_range _ _ Htag) as [[= ->] | [[= ->] | [=]]];
    apply map_unilateral_to_bilateral_mismatch; auto.
Qed.

Lemma map_unilateral_to_bilateral_wrong_length_witness :
  map_unilateral_to_bilateral [] (Some "l") = Raise ValueError.
Proof.
  apply (map_unilateral_to_bilateral_wrong_length [] (Some "l") "left");
    [reflexivity | cbn; lia | cbn; lia].
Defined.

(** ** [Cifti.set_cmap]: what it leaves alone, and when it raises *)

Section set_cmap_further.
Context {cmaps : Mpl.Colormaps} {codec : ET.Codec} {plots : Plots} {repr : Repr}
        {dtype : Nib.Datatype}.

Import Cifti.

(** The fields that hold the image itself. *)
Lemma same_but_tree_payload self self' :
  same_but_tree self self' →
  data self' = data self ∧ data_shape self' = data_shape self ∧
  affine self' = affine self ∧ header self' = header self.
Proof. unfold same_but_tree. by intros ->. Qed.

(** The general mapping reads nothing of the object and writes its range
    at most: on every object it gives the same result and the same
    update. *)
Lemma map_data_to_colors_any_state data name vr mappable self r s1 :
  map_data_to_colors data name vr mappable self = (r, s1) →
  ∃ update : Cifti.t → Cifti.t,
    (update = id ∨ ∃ v, update = set_vrange (Some v)) ∧
    ∀ s, map_data_to_colors data name vr mappable s = (r, update s).
Proof.
  unfold map_data_to_colors, bind_M, lift, modify, ret_M.
  destruct mappable as [f |].
  { intros [= <- <-]. exists id. split; [by left | done]. }
  destruct (match vr with Some _ => _ | None => _ end) as [v | e].
  - destruct (Mpl.new_ScalarMappable _ _) as [clr_map | e];
      intros [= <- <-]; exists (set_vrange (Some v)); (split; [right; by exists v | done]).
  - intros [= <- <-]. exists id. split; [by left | done].
Qed.

Lemma set_cmap_inv data cmap vrange mappable self r self' :
  set_cmap data cmap vrange mappable self = (r, self') →
  (self' = self ∧ r ≠ Ok ()) ∨
  ∃ name vr rc s1,
    check_cmap cmap = Ok name ∧ check_vrange vrange = Ok vr ∧
    map_data_to_colors data name vr mappable self = (rc, s1) ∧
    ((∃ e, r = Raise e ∧ self' = s1) ∨
     ∃ colors rw s2,
       write_colors colors s1 = (rw, s2) ∧
       (rw = Ok () ∧ r = Ok () ∧ self' = set_ischanged true s2 ∨
        (∃ e, rw = Raise e ∧ r = Raise e) ∧ self' = s2)).
Proof.
  unfold set_cmap, colors_of. intros Hrun.
  apply bind_M_inv in Hrun as [(? & [= _ <-] & ->) | (name & ? & [= Hname <-] & Hrun)];
    [by left |].
  apply bind_M_inv in Hrun as [(? & [= _ <-] & ->) | (vr & ? & [= Hvr <-] & Hrun)];
    [by left |].
  right. exists name, vr.
  apply bind_M_inv in Hrun as [(e & Hcolors & ->) | (colors & s1 & Hcolors & Hrun)].
  - apply bind_M_inv in Hcolors
      as [(? & Hgeneral & _) | (general & s1 & Hgeneral & [= _ <-])];
      eexists _, _; (split; [done |]); (split; [done |]); (split; [done |]);
      left; by exists e.
  - apply bind_M_inv in Hcolors
      as [(? & _ & [=]) | (general & ? & Hgeneral & [= _ <-])].
    eexists _, _. do 3 (split; [done |]). right.
    apply bind_M_inv in Hrun as [(e & Hwrite & ->) | ([] & s2 & Hwrite & [= <- <-])].
    + exists colors, (Raise e), self'. split; [done |]. right.
      split; [by exists e | done].
    + exists colors, (Ok ()), s2. split; [done |]. by left.
Qed.

(** X7: [set_cmap] never touches the image itself: whether it returns or
    raises, the data, their shape, the affine and the header of the object
    are what they were (the header is only written by [save]); and the
    flag is True after a call that returns, and what it was after a call
    that raises. *)
Theorem set_cmap_keeps_image (scalars : list float) cmap vrange mappable self :
  data (snd (set_cmap scalars cmap vrange mappable self)) = data self ∧
  data_shape (snd (set_cmap scalars cmap vrange mappable self)) = data_shape self ∧
  affine (snd (set_cmap scalars cmap vrange mappable self)) = affine self ∧
  header (snd (set_cmap scalars cmap vrange mappable self)) = header self ∧
  ischanged (snd (set_cmap scalars cmap vrange mappable self))
  = match fst (set_cmap scalars cmap vrange mappable self) with
    | Ok _ => true
    | Raise _ => ischanged self
    end.
Proof.
  destruct (set_cmap scalars cmap vrange mappable self) as [r self'] eqn:Hrun.
  cbn [fst snd].
  destruct (set_cmap_inv _ _ _ _ _ _ _ Hrun)
    as [[-> Hr] | (name & vr & rc & s1 & _ & _ & Hgeneral & Hrest)].
  { repeat split. by destruct r as [[] |]. }
  destruct (map_data_to_colors_any_state _ _ _ _ _ _ _ Hgeneral)
    as (update & Hupdate & Hany).
  assert (Hs1 : data s1 = data self ∧ data_shape s1 = data_shape self ∧
                affine s1 = affine self ∧ header s1 = header self ∧
                ischanged s1 = ischanged self).
  { assert (s1 = update self) as -> by (rewrite Hany in Hgeneral; congruence).
    by destruct Hupdate as [-> | [v ->]]. }
  destruct Hs1 as (Hd & Hsh & Ha & Hh & Hf).
  destruct Hrest as [(e & -> & ->) | (colors & rw & s2 & Hwrite & Hrest)]; [done |].
  pose proof (write_colors_frame _ _ _ _ Hwrite) as Hsame.
  destruct (same_but_tree_payload _ _ Hsame) as (Hd2 & Hsh2 & Ha2 & Hh2).
  destruct (same_but_tree_fields _ _ Hsame) as (_ & Hf2 & _).
  destruct Hrest as [(-> & -> & ->) | [(e & -> & ->) ->]]; cbn;
    repeat split; congruence.
Qed.

(** X8: without a mappable and without a range, [set_cmap] on an empty
    vector raises the [ValueError] of [np.min] and leaves the object as it
    was. *)
Theorem set_cmap_empty cmap vrange name self :
  check_cmap cmap = Ok name → check_vrange vrange = Ok None →
  set_cmap [] cmap vrange None self = (Raise ValueError, self).
Proof.
  intros Hname Hvr. unfold set_cmap, colors_of, bind_M, lift.
  by rewrite Hname, Hvr.
Qed.

(** X9: a mappable overrides the colormap and the range, as the docstring
    says: once both have passed validation, the call does not depend on
    them, and it leaves [self.vrange] as it was. *)
Theorem set_cmap_mappable_overrides
    data cmap1 cmap2 vrange1 vrange2 name1 name2 vr1 vr2 f self :
  check_cmap cmap1 = Ok name1 → check_cmap cmap2 = Ok name2 →
  check_vrange vrange1 = Ok vr1 → check_vrange vrange2 = Ok vr2 →
  set_cmap data cmap1 vrange1 (Some f) self
  = set_cmap data cmap2 vrange2 (Some f) self ∧
  vrange (snd (set_cmap data cmap1 vrange1 (Some f) self)) = vrange self.
Proof.
  intros Hn1 Hn2 Hv1 Hv2. split.
  - unfold set_cmap, colors_of, bind_M, lift. by rewrite Hn1, Hn2, Hv1, Hv2.
  - destruct (set_cmap data cmap1 vrange1 (Some f) self) as [r self'] eqn:Hrun.
    cbn [snd].
    destruct (set_cmap_inv _ _ _ _ _ _ _ Hrun)
      as [[-> _] | (name & vr & rc & s1 & _ & _ & [= _ <-] & Hrest)]; [done |].
    destruct Hrest as [(e & _ & ->) | (colors & rw & s2 & Hwrite & Hrest)]; [done |].
    apply write_colors_frame, same_but_tree_fields in Hwrite as (Hv & _).
    by destruct Hrest as [(_ & _ & ->) | [_ ->]].
Qed.

(** X24: with a mappable, an empty vector makes [set_cmap] raise
    [IndexError] at the override, before the loop: [np.array([])] is
    one-dimensional and has no second axis to index.  The object is as it
    was. *)
Theorem set_cmap_mappable_empty cmap vrange name vr f self :
  check_cmap cmap = Ok name → check_vrange vrange = Ok vr →
  set_cmap [] cmap vrange (Some f) self = (Raise IndexError, self).
Proof.
  intros Hname Hvr. unfold set_cmap, colors_of, bind_M, lift.
  rewrite Hname, Hvr. unfold map_data_to_colors, ret_M. cbn [map Mpl.np_array].
  by rewrite set_zero_to_grey_flat.
Qed.

End set_cmap_further.

Lemma for_app {S} (l1 l2 : list nat) (body : nat → M S unit) (s : S) :
  for_ (l1 ++ l2) body s = bind_M (for_ l1 body) (λ _, for_ l2 body) s.
Proof.
  revert s. induction l1 as [| ii l1 IH]; intros s; cbn [for_ app]; [done |].
  unfold bind_M in *. destruct (body ii s) as [[[] | e] s']; [apply IH | done].
Qed.

Section table_bounds.
Context {cmaps : Mpl.Colormaps} {codec : ET.Codec} {plots : Plots} {repr : Repr}
        {dtype : Nib.Datatype}.

Import Cifti.

(** The loop on a table that has more entries than there are rows: the
    entries that have a row are patched, and the first one that has none
    stops the loop. *)
Lemma write_colors_short colors self t :
  ET.at_path (extensions self) label_table = Ok t →
  length (Mpl.rows colors) + 1 < ET.len t →
  ∃ self' t',
    write_colors colors self = (Raise IndexError, self') ∧
    same_but_tree self self' ∧
    ET.at_path (extensions self') label_table = Ok t' ∧
    ET.len t' = ET.len t ∧
    ET.children t' !! 0 = ET.children t !! 0 ∧
    (∀ i, length (Mpl.rows colors) < i → ET.children t' !! i = ET.children t !! i) ∧
    (∀ i, 1 ≤ i ≤ length (Mpl.rows colors) → ∃ c row,
       ET.children t !! i = Some c ∧ Mpl.rows colors !! (i - 1) = Some row ∧
       ET.children t' !! i = Some (patch row c)).
Proof.
  intros Ht Hlen. unfold ET.len in Hlen.
  set (m := length (Mpl.rows colors)) in *.
  set (k := length (ET.children t) - 1 - m).
  assert (Hrange : range 1 (ET.len t) = seq 1 m ++ (S m) :: seq (S (S m)) (k - 1)).
  { unfold range, ET.len. replace (length (ET.children t) - 1) with (m + S (k - 1))
      by (unfold k; lia).
    rewrite seq_app. by cbn. }
  destruct (for_set_entry_total colors (seq 1 m) self t Ht) as [s2 Hloop].
  { intros j Hj%elem_of_seq. unfold m in *. lia. }
  destruct (for_set_entry_Ok _ _ _ _ _ (NoDup_seq _ _) Hloop Ht)
    as (t' & Ht' & _ & _ & Hlen' & Hout & Hin & Hsame).
  assert (Hentry : ∃ c, ET.at_path (extensions s2) (label_table ++ [S m]) = Ok c).
  { destruct (lookup_lt_is_Some_2 (ET.children t') (S m)) as [c Hc]; [lia |].
    exists c. rewrite (at_path_snoc _ _ _ _ Ht'). by apply getitem_Ok. }
  destruct Hentry as [c Hentry].
  assert (Hstop : set_entry colors (S m) s2 = (Raise IndexError, s2)).
  { unfold set_entry, bind_M.
    rewrite (set_component_short colors (S m) "Red" Mpl.red s2 c Hentry); [done |].
    apply lookup_ge_None. unfold m. lia. }
  exists s2, t'. split.
  { unfold write_colors, bind_M, get_M, lift. rewrite Ht, Hrange, for_app.
    unfold bind_M. rewrite Hloop. cbn [for_]. unfold bind_M. by rewrite Hstop. }
  split; [done |]. split; [done |]. split; [by unfold ET.len |].
  split; [| split].
  - apply Hout. rewrite elem_of_seq. lia.
  - intros i Hi. apply Hout. rewrite elem_of_seq. lia.
  - intros i Hi. apply Hin. rewrite elem_of_seq. lia.
Qed.

Lemma colors_of_inv (scalars : list float) name vr mappable self colors s1 :
  colors_of scalars name vr mappable self = (Ok colors, s1) →
  ∃ general,
    map_data_to_colors scalars name vr mappable self = (Ok general, s1) ∧
    set_zero_to_grey scalars general = Ok colors.
Proof.
  unfold colors_of.
  intros (general & s1' & Hgeneral & [Hgrey ->]%lift_Ok)%bind_M_Ok.
  by exists general.
Qed.

(** X10: when the color table has more entries than there are scalars
    plus the reserved entry 0, [set_cmap] raises [IndexError] in the loop,
    at the first entry that has no row: by then every entry [i] that has a
    row is patched with the row [i - 1] of the computed colors; entry 0 and
    the later entries are as they were, and the flag is not set. *)
Theorem set_cmap_long_table
    (scalars : list float) cmap vrange mappable self name vr colors s1 t :
  check_cmap cmap = Ok name → check_vrange vrange = Ok vr →
  colors_of scalars name vr mappable self = (Ok colors, s1) →
  ET.at_path (extensions self) label_table = Ok t →
  length scalars + 1 < ET.len t →
  ∃ self' t',
    set_cmap scalars cmap vrange mappable self = (Raise IndexError, self') ∧
    ischanged self' = ischanged self ∧
    ET.at_path (extensions self') label_table = Ok t' ∧
    ET.len t' = ET.len t ∧
    ET.children t' !! 0 = ET.children t !! 0 ∧
    (∀ i, length scalars < i → ET.children t' !! i = ET.children t !! i) ∧
    (∀ i, 1 ≤ i ≤ length scalars → ∃ c row,
       ET.children t !! i = Some c ∧
       Mpl.rows colors !! (i - 1) = Some row ∧
       ET.children t' !! i = Some (patch row c)).
Proof.
  intros Hname Hvr Hcolors Ht Hlen.
  destruct (colors_of_inv _ _ _ _ _ _ _ Hcolors) as (general & Hgeneral & Hgrey).
  destruct (map_data_to_colors_tree _ _ _ _ _ _ _ Hgeneral) as (Htree & Hflag & _).
  destruct (map_data_to_colors_Ok _ _ _ _ _ _ _ Hgeneral) as [Hrows _].
  assert (Hcount : length (Mpl.rows colors) = length scalars).
  { rewrite set_zero_to_grey_eq in Hgrey.
    by rewrite (setmask_rows _ _ _ _ Hgrey). }
  destruct (write_colors_short colors s1 t) as
    (self' & t' & Hwrite & Hsame & Ht' & Hlen' & Hzero & Hout & Hin);
    [by rewrite Htree | lia |].
  exists self', t'. split.
  { unfold set_cmap, bind_M at 1, lift at 1. rewrite Hname.
    unfold bind_M at 1, lift at 1. rewrite Hvr.
    unfold bind_M at 1. rewrite Hcolors.
    unfold bind_M. by rewrite Hwrite. }
  split.
  { apply same_but_tree_fields in Hsame as (_ & Hf & _). congruence. }
  split; [done |]. split; [done |]. split; [done |]. split.
  - intros i Hi. apply Hout. lia.
  - intros i Hi. apply Hin. lia.
Qed.

End table_bounds.

(** ** [Cifti.set_cmap] twice, and [Cifti.save] *)

(** An update that changes nothing at the element it reaches changes
    nothing in the tree. *)
Lemma update_path_id (f : ET.element → ET.element) (path : list nat) :
  ∀ e t, ET.at_path e path = Ok t → f t = t → ET.update_path f e path = Ok e.
Proof.
  induction path as [| i path IH]; intros e t; cbn [ET.at_path ET.update_path].
  - intros [= ->] ->. done.
  - intros (c & Hc & Hrest)%bind_Ok Hf. rewrite Hc. cbn.
    rewrite (IH _ _ Hrest Hf). cbn. apply getitem_Ok in Hc.
    rewrite list_insert_id by done. by destruct e.
Qed.

Lemma set_same (key value : string) (e : ET.element) :
  ET.attrib e !! key = Some value → ET.set key value e = e.
Proof. intros Hkey. unfold ET.set. rewrite insert_id by done. by destruct e. Qed.

Section twice.
Context {cmaps : Mpl.Colormaps} {codec : ET.Codec} {plots : Plots} {repr : Repr}
        {dtype : Nib.Datatype}.

Import Cifti.

Lemma set_extensions_same self : set_extensions (extensions self) self = self.
Proof. by destruct self. Qed.

(** A statement of the loop that writes the value an entry already has
    leaves the object as it is. *)
Lemma set_component_fixed colors ii key k self t c row :
  ET.at_path (extensions self) label_table = Ok t →
  ET.children t !! ii = Some c →
  Mpl.rows colors !! (ii - 1) = Some row →
  ET.attrib c !! key = Some (str (k row)) →
  set_component colors ii key k self = (Ok (), self).
Proof.
  intros Ht Hc Hrow Hkey.
  assert (Hentry : ET.at_path (extensions self) (label_table ++ [ii]) = Ok c).
  { rewrite (at_path_snoc _ _ _ _ Ht). by apply getitem_Ok. }
  unfold set_component, bind_M, get_M, lift, modify.
  rewrite Hentry. apply getitem_Ok in Hrow. rewrite Hrow.
  rewrite (update_path_id _ _ _ _ Hentry (set_same _ _ _ Hkey)).
  by rewrite set_extensions_same.
Qed.

Lemma for_set_entry_fixed colors self t l :
  ET.at_path (extensions self) label_table = Ok t →
  (∀ i, i ∈ l → ∃ c row,
     ET.children t !! i = Some c ∧ Mpl.rows colors !! (i - 1) = Some row ∧
     ET.attrib c !! "Red" = Some (str (Mpl.red row)) ∧
     ET.attrib c !! "Green" = Some (str (Mpl.green row)) ∧
     ET.attrib c !! "Blue" = Some (str (Mpl.blue row)) ∧
     ET.attrib c !! "Alpha" = Some (str (Mpl.alpha row))) →
  for_ l (set_entry colors) self = (Ok (), self).
Proof.
  intros Ht. induction l as [| ii l IH]; intros Hl; cbn [for_]; [done |].
  destruct (Hl ii) as (c & row & Hc & Hrow & Hr & Hg & Hb & Ha); [by left |].
  unfold bind_M, set_entry, bind_M.
  rewrite (set_component_fixed _ _ _ _ _ _ _ _ Ht Hc Hrow Hr).
  rewrite (set_component_fixed _ _ _ _ _ _ _ _ Ht Hc Hrow Hg).
  rewrite (set_component_fixed _ _ _ _ _ _ _ _ Ht Hc Hrow Hb).
  rewrite (set_component_fixed _ _ _ _ _ _ _ _ Ht Hc Hrow Ha).
  apply IH. intros i Hi. apply Hl. by right.
Qed.

(** X11: [set_cmap] is idempotent: after a call that has returned, the
    same call again returns and leaves the object (tree, range and flag)
    exactly as the first call left it. *)
Theorem set_cmap_twice (scalars : list float) cmap vrange mappable self self' :
  set_cmap scalars cmap vrange mappable self = (Ok (), self') →
  set_cmap scalars cmap vrange mappable self' = (Ok (), self').
Proof.
  intros (name & vr & general & colors & s1 & s2 &
          Hname & Hvr & Hgeneral & Hgrey & Hwrite & ->)%set_cmap_Ok.
  destruct (map_data_to_colors_any_state _ _ _ _ _ _ _ Hgeneral)
    as (update & Hupdate & Hany).
  assert (Hs1 : s1 = update self) by (rewrite Hany in Hgeneral; congruence).
  destruct (write_colors_Ok _ _ _ Hwrite)
    as (t & t' & Ht & Ht' & _ & _ & Hlen & _ & Hentries & Hsame).
  destruct (same_but_tree_fields _ _ Hsame) as (Hv & _).
  set (s3 := set_ischanged true s2).
  assert (Hfix : update s3 = s3).
  { destruct Hupdate as [-> | [v ->]]; [done |].
    unfold s3. rewrite Hs1 in Hv. cbn in Hv. destruct s2. cbn in *. by subst. }
  assert (Hloop : write_colors colors s3 = (Ok (), s3)).
  { unfold write_colors, bind_M, get_M, lift. cbn [extensions s3 set_ischanged].
    change (extensions s3) with (extensions s2). rewrite Ht'.
    apply (for_set_entry_fixed colors s3 t' _ Ht').
    intros i Hi%elem_of_range. rewrite Hlen in Hi.
    destruct (Hentries i Hi) as (c & row & _ & Hrow & Hc').
    exists (patch row c), row. split; [done |]. split; [done |].
    destruct (patch_spec row c) as (Hr & Hg & Hb & Ha & _). done. }
  unfold set_cmap, bind_M at 1, lift at 1. rewrite Hname.
  unfold bind_M at 1, lift at 1. rewrite Hvr.
  unfold bind_M at 1.
  assert (Hcolors : colors_of scalars name vr mappable s3 = (Ok colors, s3)).
  { eapply colors_of_Ok; [| done]. by rewrite Hany, Hfix. }
  rewrite Hcolors. unfold bind_M. rewrite Hloop. unfold modify.
  by destruct s2.
Qed.

(** X12: round trip of [save] and [__init__]: loading the file that
    [save] has written gives an object with the data as they are stored,
    the same shape and affine, and the header as it is read back; its tree
    is the parse of what [get_content()] returns for the first extension of
    the saved object, which is the document that object was loaded with and
    not the tree it holds; its flag and range are reset. *)
Theorem save_then_init self fout fs self' fs' ext tree :
  save self fout fs = Ok (self', fs') →
  Nib.extensions (header self) !! 0 = Some ext →
  ET.fromstring (Nib.get_content ext) = Ok tree →
  __init__ fs' fout
  = Ok (mk (data_shape self)
           (Nib.as_stored (Nib.fields (header self)) (data self))
           (affine self)
           (Nib.Header
              (map (λ e, Nib.Extension (Nib._content e) None)
                 (Nib.extensions (header self)))
              (Nib.fields (header self)))
           tree None false).
Proof.
  intros [-> _]%save_Ok Hext Hparse.
  rewrite (init_total _ fout _ (Nib.get_content ext) tree
             (lookup_insert_eq _ _ _)); [| | exact Hparse].
  - unfold Nib.to_file, Nib.from_file. cbn. by rewrite map_map.
  - cbn. change (map Nib._content ?l) with (Nib._content <$> l).
    by rewrite list_lookup_fmap, Hext.
Qed.

(** X13: [save] writes one file and touches one header extension: the
    files at other paths are untouched; in the header only the first
    extension can change, by the assignment of its attribute (the fields,
    the number of extensions, the later extensions and what
    [get_content()] returns for each of them stay); the data, the tree and
    the range of the object stay; and the flag is not reset, so an object
    that was changed is serialized again by every later [save]. *)
Theorem save_frame self fout fs self' fs' :
  save self fout fs = Ok (self', fs') →
  (∀ path, path ≠ fout → fs' !! path = fs !! path) ∧
  Nib.fields (header self') = Nib.fields (header self) ∧
  length (Nib.extensions (header self')) = length (Nib.extensions (header self)) ∧
  (∀ i, 0 < i →
     Nib.extensions (header self') !! i = Nib.extensions (header self) !! i) ∧
  map Nib.get_content (Nib.extensions (header self'))
  = map Nib.get_content (Nib.extensions (header self)) ∧
  extensions self' = extensions self ∧ data self' = data self ∧
  vrange self' = vrange self ∧ ischanged self' = ischanged self.
Proof.
  intros [-> Hself']%save_Ok. split.
  { intros path Hpath. by apply lookup_insert_ne. }
  destruct (ischanged self) eqn:Hflag; [| by subst self'].
  destruct Hself' as (ext & Hext & ->). cbn.
  split; [done |]. split; [apply length_insert |]. split.
  { intros i Hi. apply list_lookup_insert_ne. lia. }
  split; [| done]. by apply assigned_content.
Qed.

End twice.

(** ** The writers *)

Lemma dense_name_fixed (fout : string) : dense_name (dense_name fout) = dense_name fout.
Proof.
  destruct (dense_name_spec fout) as [_ Hends].
  unfold Py.endswith in Hends. apply bool_decide_eq_true in Hends.
  unfold dense_name at 1. cbn [String.length] in Hends.
  by rewrite bool_decide_eq_false_2 by (by intros Hne).
Qed.

Section writers_further.
Context {cmaps : Mpl.Colormaps} {codec : ET.Codec} {plots : Plots} {repr : Repr}
        {dtype : Nib.Datatype} {consts : Constants}.

(** X14: [write_parcellated_image] sees its hemisphere tag only through
    [check_hemisphere]: every accepted spelling gives the call of its
    normal form, and any other tag raises [ValueError] before the template
    is loaded, whatever the data and the files. *)
Theorem write_parcellated_image_by_tag
    (scalars : list float) fout hemisphere vrange cmap (fs : Nib.files) :
  write_parcellated_image scalars fout hemisphere vrange cmap fs
  = check_hemisphere hemisphere ≫=
      λ tag, write_parcellated_image scalars fout tag vrange cmap fs.
Proof.
  destruct (check_hemisphere hemisphere) as [tag | e] eqn:Htag.
  - cbn. unfold write_parcellated_image.
    rewrite Htag, (check_hemisphere_fixed _ _ Htag).
    by rewrite (map_unilateral_to_bilateral_normal _ _ _ Htag).
  - unfold write_parcellated_image. by rewrite Htag.
Qed.

Lemma set_cmap_Ok_image (scalars : list float) cmap vrange mappable self self' :
  Cifti.set_cmap scalars cmap vrange mappable self = (Ok (), self') →
  Cifti.data self' = Cifti.data self ∧
  Cifti.data_shape self' = Cifti.data_shape self ∧
  Cifti.affine self' = Cifti.affine self ∧
  Cifti.header self' = Cifti.header self ∧
  Cifti.ischanged self' = true.
Proof.
  intros (name & vr & general & colors & s1 & s2 &
          _ & _ & Hgeneral & _ & Hwrite & ->)%set_cmap_Ok.
  apply write_colors_frame, same_but_tree_payload in Hwrite as (Hd & Hsh & Ha & Hh).
  destruct (map_data_to_colors_any_state _ _ _ _ _ _ _ Hgeneral)
    as (update & Hupdate & Hany).
  assert (s1 = update self) as -> by (rewrite Hany in Hgeneral; congruence).
  cbn. by destruct Hupdate as [-> | [v ->]].
Qed.

(** X15: what [write_parcellated_image] writes is the template again:
    the file at [fout] holds the shape, the affine, the header fields and
    the extensions of the dlabel template, and its data as they are stored
    with that header, which makes it the template itself when storing
    leaves the template's data as they are.  Nothing in the file depends on
    the scalars, the range or the colormap: the colors reach the tree of
    the object and the attribute that [write_extensions] assigns, and
    neither is written.  The other files are untouched. *)
Theorem write_parcellated_image_output
    (scalars : list float) fout hemisphere vrange cmap (fs fs' : Nib.files) :
  write_parcellated_image scalars fout hemisphere vrange cmap fs = Ok fs' →
  ∃ tmpl,
    fs !! DLABEL_FILE = Some tmpl ∧
    fs' = <[fout :=
              Nib.File (Nib.file_shape tmpl)
                (Nib.as_stored (Nib.file_fields tmpl) (Nib.file_data tmpl))
                (Nib.file_affine tmpl) (Nib.file_extensions tmpl)
                (Nib.file_fields tmpl)]> fs ∧
    (Nib.as_stored (Nib.file_fields tmpl) (Nib.file_data tmpl) = Nib.file_data tmpl →
     fs' !! fout = Some tmpl) ∧
    (∀ path, path ≠ fout → fs' !! path = fs !! path).
Proof.
  unfold write_parcellated_image.
  intros (tag & _ & (pscalars_lr & _ & (c & Hinit & Hrest)%bind_Ok)%bind_Ok)%bind_Ok.
  destruct (Cifti.set_cmap _ _ _ _ c) as [[[] | e] c'] eqn:Hset; [| discriminate].
  apply bind_Ok in Hrest as ([c'' fs''] & Hsave & [= <-]).
  destruct (colored_then_saved _ _ _ _ _ _ _ _ _ _ _ Hinit Hset Hsave)
    as (tmpl & Htmpl & -> & _). cbn [snd].
  exists tmpl. split; [done |]. split; [done |]. split.
  - intros ->. rewrite lookup_insert_eq. by destruct tmpl.
  - intros path Hpath. by apply lookup_insert_ne.
Qed.

(** X16: what [write_dense_image] writes: the file holds the values of
    the caller's array as they are stored with the header of the dscalar
    template (cast to its datatype), with the shape, the affine, the header
    fields and the extensions of that template; the other files are
    untouched. *)
Theorem write_dense_image_output dscalars fout savedir σ fs w' :
  write_dense_image dscalars fout savedir (σ, fs) = (Ok (), w') →
  ∃ buf values tmpl,
    dscalars = PyNdarray (Np.Ndarray [91282%N] buf) ∧
    σ !! buf = Some values ∧
    fs !! DSCALAR_FILE = Some tmpl ∧
    snd w' !! Py.join savedir (dense_name fout)
    = Some (Nib.File (Nib.file_shape tmpl)
              (Nib.as_stored (Nib.file_fields tmpl) values)
              (Nib.file_affine tmpl) (Nib.file_extensions tmpl)
              (Nib.file_fields tmpl)) ∧
    (∀ path, path ≠ Py.join savedir (dense_name fout) →
       snd w' !! path = fs !! path).
Proof.
  intros (a & values & tmpl & σ1 & σ2 & new_data & temp_data &
          -> & Hshape & Hbuf & _ & Htmpl & _ & _ & ->)%write_dense_image_Ok.
  destruct a as [shp buf]. cbn in Hshape, Hbuf, Htmpl. subst shp.
  exists buf, values, tmpl. do 3 (split; [done |]). cbn [snd]. split.
  - apply lookup_insert_eq.
  - intros path Hpath. by apply lookup_insert_ne.
Qed.

(** X17: a call of [write_dense_image] that raises has written no file:
    the file system is as it was. *)
Theorem write_dense_image_raises dscalars fout savedir σ fs e w' :
  write_dense_image dscalars fout savedir (σ, fs) = (Raise e, w') →
  snd w' = fs.
Proof.
  unfold write_dense_image, bind_M, lift, modify.
  destruct (check_dscalars dscalars) as [[] | e']; [| by intros [= _ <-]].
  destruct dscalars as [| | | | a]; try (by intros [= _ <-]).
  unfold Np.copy, Np.array. cbn [fst snd].
  destruct (σ !! Np.buffer a) as [values |]; [| by intros [= _ <-]].
  cbn [fst snd].
  destruct (Nib.load fs DSCALAR_FILE) as [tmpl | e']; [| by intros [= _ <-]].
  destruct (Np.reshape _ _) as [data_to_write | e']; [| by intros [= _ <-]].
  destruct (_ !! Np.buffer data_to_write); [discriminate | by intros [= _ <-]].
Qed.

(** X18: an argument that is not a one-dimensional ndarray of 91282
    elements is refused before anything else is done: [RuntimeError], with
    the arrays and the files as they were, whether or not the template
    exists. *)
Theorem write_dense_image_rejects dscalars fout savedir w :
  check_dscalars dscalars ≠ Ok () →
  write_dense_image dscalars fout savedir w = (Raise RuntimeError, w).
Proof.
  intros Hcheck. unfold write_dense_image, bind_M, lift.
  destruct dscalars as [| | | | a]; try reflexivity.
  unfold check_dscalars in *.
  repeat (destruct (decide _)); try reflexivity. contradiction.
Qed.

(** X19: the output name may be given with or without its extension:
    [write_dense_image] with [name] and with [name.dscalar.nii] are the
    same call, and the extension is never added twice. *)
Theorem write_dense_image_extension dscalars fout savedir :
  write_dense_image dscalars (dense_name fout) savedir
  = write_dense_image dscalars fout savedir ∧
  dense_name (fout +:+ ".dscalar.nii") = fout +:+ ".dscalar.nii".
Proof.
  split.
  - unfold write_dense_image. by rewrite dense_name_fixed.
  - unfold dense_name. rewrite bool_decide_eq_false_2; [done |].
    intros Hne. apply Hne. by rewrite last_chars_app.
Qed.

End writers_further.

(** ** The colors of the scalars, and the rest of the tree *)

(** One update in place of two at the same path. *)
Lemma update_path_const (f : ET.element → ET.element) (path : list nat) :
  ∀ e e' t,
    ET.update_path f e path = Ok e' → ET.at_path e path = Ok t →
    ET.update_path (λ _, f t) e path = Ok e'.
Proof.
  induction path as [| i path IH]; intros e e' t; cbn [ET.at_path ET.update_path].
  - by intros [= <-] [= ->].
  - intros (c & Hc & (c' & Hc' & [= <-])%bind_Ok)%bind_Ok.
    rewrite Hc. cbn. intros Ht. by rewrite (IH _ _ _ Hc' Ht).
Qed.

Lemma update_path_twice (t1 t2 : ET.element) (path : list nat) :
  ∀ e e1 e2,
    ET.update_path (λ _, t1) e path = Ok e1 →
    ET.update_path (λ _, t2) e1 path = Ok e2 →
    ET.update_path (λ _, t2) e path = Ok e2.
Proof.
  induction path as [| i path IH]; intros e e1 e2; cbn [ET.update_path].
  - by intros [= <-] [= <-].
  - intros (c & Hc & (c1 & Hc1 & [= <-])%bind_Ok)%bind_Ok.
    unfold ET.getitem at 1. cbn [ET.children ET.tag ET.attrib].
    pose proof Hc as Hlt. apply getitem_Ok, lookup_lt_Some in Hlt.
    assert (Hi : Py.getitem (<[i := c1]> (ET.children e)) i = Ok c1)
      by by apply getitem_Ok, list_lookup_insert_eq.
    rewrite Hi. cbn.
    intros (c2 & Hc2 & [= <-])%bind_Ok.
    rewrite Hc. cbn. rewrite (IH _ _ _ Hc1 Hc2). cbn.
    by rewrite list_insert_insert_eq.
Qed.

Lemma update_path_snoc (f : ET.element → ET.element) (path : list nat) (i : nat) :
  ∀ e e' t c,
    ET.update_path f e (path ++ [i]) = Ok e' →
    ET.at_path e path = Ok t → ET.children t !! i = Some c →
    ET.update_path
      (λ _, ET.Element (ET.tag t) (ET.attrib t) (<[i := f c]> (ET.children t)))
      e path
    = Ok e'.
Proof.
  induction path as [| j path IH]; intros e e' t c;
    cbn [ET.at_path ET.update_path app].
  - intros (c0 & Hc0 & [= <-])%bind_Ok [= ->] Hc.
    apply getitem_Ok in Hc0. by assert (c0 = c) as -> by congruence.
  - intros (d & Hd & (d' & Hd' & [= <-])%bind_Ok)%bind_Ok.
    rewrite Hd. cbn. intros Ht Hc. by rewrite (IH _ _ _ _ Hd' Ht Hc).
Qed.

Lemma update_path_at (f : ET.element → ET.element) (path : list nat) :
  ∀ e e',
    ET.update_path f e path = Ok e' →
    ∃ t, ET.at_path e path = Ok t ∧ ET.at_path e' path = Ok (f t).
Proof.
  induction path as [| i path IH]; intros e e'; cbn [ET.at_path ET.update_path].
  - intros [= <-]. by exists e.
  - intros (c & Hc & (c' & Hc' & [= <-])%bind_Ok)%bind_Ok.
    destruct (IH _ _ Hc') as (t & Ht & Ht'). exists t. rewrite Hc. cbn.
    split; [done |]. unfold ET.getitem. cbn [ET.children].
    apply getitem_Ok in Hc.
    assert (Hi : Py.getitem (<[i := c']> (ET.children e)) i = Ok c').
    { apply getitem_Ok, list_lookup_insert_eq. by eapply lookup_lt_Some. }
    by rewrite Hi.
Qed.

Section tree_frame.
Context {cmaps : Mpl.Colormaps} {codec : ET.Codec} {plots : Plots} {repr : Repr}
        {dtype : Nib.Datatype}.

Import Cifti.

Lemma table_replaced_refl e t :
  ET.at_path e label_table = Ok t → table_replaced e e.
Proof. intros Ht. exists t. by apply (update_path_id _ _ _ t). Qed.

Lemma table_replaced_trans e1 e2 e3 :
  table_replaced e1 e2 → table_replaced e2 e3 → table_replaced e1 e3.
Proof. intros [t2 H2] [t3 H3]. exists t3. by eapply update_path_twice. Qed.

Lemma set_component_table colors ii key k self self' :
  set_component colors ii key k self = (Ok (), self') →
  table_replaced (extensions self) (extensions self').
Proof.
  unfold set_component.
  intros (s0 & s1 & [= <- <-] & Hrest)%bind_M_Ok.
  apply bind_M_Ok in Hrest as (entry & s1 & [Hentry ->]%lift_Ok & Hrest).
  apply bind_M_Ok in Hrest as (row & s1 & [Hrow ->]%lift_Ok & Hrest).
  apply bind_M_Ok in Hrest as (tree & s1 & [Htree ->]%lift_Ok & Hrest).
  injection Hrest as <-. cbn [extensions set_extensions].
  destruct (at_path_snoc_Ok _ _ _ _ Hentry) as (t & Ht & Hc).
  eexists. by eapply update_path_snoc.
Qed.

Lemma set_entry_table colors ii self self' :
  set_entry colors ii self = (Ok (), self') →
  table_replaced (extensions self) (extensions self').
Proof.
  unfold set_entry.
  intros ([] & s1 & H1%set_component_table & Hrest)%bind_M_Ok.
  apply bind_M_Ok in Hrest as ([] & s2 & H2%set_component_table & Hrest).
  apply bind_M_Ok in Hrest as ([] & s3 & H3%set_component_table & H4%set_component_table).
  eauto using table_replaced_trans.
Qed.

Lemma for_set_entry_table colors l : ∀ self self' t,
  ET.at_path (extensions self) label_table = Ok t →
  for_ l (set_entry colors) self = (Ok (), self') →
  table_replaced (extensions self) (extensions self').
Proof.
  induction l as [| ii l IH]; intros self self' t Ht; cbn [for_].
  - intros [= <-]. by eapply table_replaced_refl.
  - intros ([] & s1 & Hbody & Hloop)%bind_M_Ok.
    destruct (set_entry_Ok _ _ _ _ Hbody) as (t0 & c & row & _ & _ & _ & Ht1 & _).
    eapply table_replaced_trans; [by eapply set_entry_table | by eapply IH].
Qed.

(** X20: [set_cmap] changes the XML tree inside the label table only:
    the tree after a call that returns is the tree before with the element
    at [extensions[0][1][0][1]] replaced; every other element, attribute
    and child of the tree is as it was. *)
Theorem set_cmap_tree_frame (scalars : list float) cmap vrange mappable self self' :
  set_cmap scalars cmap vrange mappable self = (Ok (), self') →
  ∃ table',
    ET.update_path (λ _, table') (extensions self) label_table
    = Ok (extensions self') ∧
    ET.at_path (extensions self') label_table = Ok table'.
Proof.
  intros (name & vr & general & colors & s1 & s2 &
          _ & _ & Hgeneral & _ & Hwrite & ->)%set_cmap_Ok.
  destruct (map_data_to_colors_tree _ _ _ _ _ _ _ Hgeneral) as (Htree & _).
  unfold write_colors in Hwrite.
  apply bind_M_Ok in Hwrite as (s0 & s1' & [= <- <-] & Hwrite).
  apply bind_M_Ok in Hwrite as (t & s1' & [Ht ->]%lift_Ok & Hloop).
  destruct (for_set_entry_table _ _ _ _ _ Ht Hloop) as [table' Htable].
  rewrite Htree in Htable. exists table'. split; [exact Htable |].
  cbn [extensions set_ischanged].
  by destruct (update_path_at _ _ _ _ Htable) as (t0 & _ & Ht').
Qed.

(** The override in an array of [float64], position by position. *)
Lemma set_zero_to_grey_map (scalars : list float) rows colors :
  length rows = length scalars →
  set_zero_to_grey scalars (Mpl.Floats rows) = Ok colors →
  colors
  = Mpl.Floats
      (zip_with (λ x c, if PrimFloat.eqb x 0%float
                        then Mpl.call Mpl.Greys 0.2%float else c)
         scalars rows).
Proof.
  intros Hlen Hgrey.
  destruct (set_zero_to_grey_floats _ _ _ Hlen Hgrey) as (rows' & -> & Hlen' & Hrows).
  f_equal. apply list_eq. intros i.
  rewrite lookup_zip_with.
  destruct (scalars !! i) as [x |] eqn:Hx; cbn.
  - rewrite (Hrows _ _ Hx).
    destruct (lookup_lt_is_Some_2 rows i) as [c Hc].
    { rewrite Hlen. by eapply lookup_lt_Some. }
    rewrite Hc. cbn. by destruct (PrimFloat.eqb x 0%float).
  - apply lookup_ge_None. rewrite Hlen', Hlen. by apply lookup_ge_None.
Qed.

(** X21: with an explicit range [vmin < vmax] the color of a parcel
    depends on its own scalar only: the computed colors are an array of
    [float64] that holds, scalar by scalar, the grey [Greys(0.2)] for a
    scalar equal to zero and the colormap at [(x - vmin) / (vmax - vmin)]
    for any other, and the range is recorded in [self.vrange]. *)
Theorem colors_of_explicit_range
    (scalars : list float) name cm (lo hi : float) self :
  Mpl.get_cmap name = Ok cm →
  PrimFloat.ltb lo hi = true →
  colors_of scalars name (Some (lo, hi)) None self
  = (Ok (Mpl.Floats
           (map (λ x, if PrimFloat.eqb x 0%float
                      then Mpl.call Mpl.Greys 0.2%float
                      else Mpl.call cm ((x - lo) / (hi - lo))%float) scalars)),
     set_vrange (Some (lo, hi)) self).
Proof.
  intros Hcm Hlt.
  set (general := map (Mpl.call cm) ((λ x, ((x - lo) / (hi - lo))%float) <$> scalars)).
  assert (Hgeneral : map_data_to_colors scalars name (Some (lo, hi)) None self
                     = (Ok (Mpl.Floats general), set_vrange (Some (lo, hi)) self)).
  { unfold map_data_to_colors, bind_M, lift, modify, Mpl.new_ScalarMappable.
    rewrite Hcm. cbn. unfold Mpl.to_rgba. cbn [Mpl.sm_norm Mpl.sm_cmap].
    by rewrite (Normalize_call_linear _ _ _ Hlt). }
  assert (Hlen : length general = length scalars).
  { unfold general. by rewrite length_map, length_fmap. }
  destruct (set_zero_to_grey scalars (Mpl.Floats general)) as [colors | e] eqn:Hgrey;
    [| by rewrite set_zero_to_grey_eq in Hgrey].
  rewrite (colors_of_Ok _ _ _ _ _ _ _ _ Hgeneral Hgrey). f_equal. f_equal.
  rewrite (set_zero_to_grey_map _ _ _ Hlen Hgrey). unfold general. f_equal.
  clear. induction scalars as [| x scalars IH]; [done |]. cbn. by rewrite IH.
Qed.

(** X22: an explicit range with [vmax < vmin] makes [set_cmap] raise the
    [ValueError] of the normalization; by then [self.vrange] already
    holds the range, while the tree and the flag are as they were. *)
Theorem set_cmap_inverted_range
    (scalars : list float) cmap name cm (lo hi : float) self :
  check_cmap cmap = Ok name →
  check_vrange (Some (lo, hi)) = Ok (Some (lo, hi)) →
  Mpl.get_cmap name = Ok cm →
  PrimFloat.ltb hi lo = true →
  set_cmap scalars cmap (Some (lo, hi)) None self
  = (Raise ValueError, set_vrange (Some (lo, hi)) self).
Proof.
  intros Hname Hvr Hcm Hlt.
  unfold set_cmap, colors_of, map_data_to_colors, bind_M, lift, modify,
    Mpl.new_ScalarMappable.
  rewrite Hname, Hvr, Hcm. cbn. unfold Mpl.to_rgba, Mpl.Normalize_call.
  cbn [Mpl.sm_norm Mpl.sm_cmap Mpl.vmin Mpl.vmax].
  assert (Hne : PrimFloat.eqb lo hi = false).
  { rewrite FloatAxioms.eqb_spec.
    rewrite FloatAxioms.ltb_spec in Hlt. unfold SFltb, SFeqb in *.
    rewrite (SFcompare_antisym (Prim2SF hi) (Prim2SF lo)).
    by destruct (SFcompare (Prim2SF hi) (Prim2SF lo)) as [[] |]. }
  by rewrite Hne, Hlt.
Qed.

End tree_frame.

(** X23: without its template a writer raises [FileNotFoundError]:
    [write_parcellated_image] once the tag and the padding have passed,
    [write_dense_image] once the array has passed [check_dscalars] and has
    been copied; no file is written. *)
Theorem missing_template
    {cmaps : Mpl.Colormaps} {codec : ET.Codec} {plots : Plots} {repr : Repr}
    {dtype : Nib.Datatype} {consts : Constants} :
  (∀ (scalars padded : list float) fout hemisphere vrange cmap (fs : Nib.files),
     map_unilateral_to_bilateral scalars hemisphere = Ok padded →
     fs !! DLABEL_FILE = None →
     write_parcellated_image scalars fout hemisphere vrange cmap fs
     = Raise FileNotFoundError) ∧
  (∀ buf values fout savedir (σ : Np.store) (fs : Nib.files),
     σ !! buf = Some values →
     fs !! DSCALAR_FILE = None →
     write_dense_image (PyNdarray (Np.Ndarray [91282%N] buf)) fout savedir (σ, fs)
     = (Raise FileNotFoundError, (<[fresh (dom σ) := values]> σ, fs))).
Proof.
  split.
  - intros scalars padded fout hemisphere vrange cmap fs Hpad Htmpl.
    unfold write_parcellated_image. rewrite Hpad.
    destruct (check_hemisphere hemisphere) as [tag | e] eqn:Htag.
    + cbn. unfold Cifti.__init__, Nib.load. by rewrite Htmpl.
    + unfold map_unilateral_to_bilateral in Hpad. by rewrite Htag in Hpad.
  - intros buf values fout savedir σ fs Hbuf Htmpl.
    unfold write_dense_image, bind_M, lift.
    change (check_dscalars _) with (@Ok unit ()). cbn iota.
    unfold Np.copy, Np.array, Nib.load. cbn [fst snd Np.buffer Np.shape].
    rewrite Hbuf. cbn [fst snd]. by rewrite Htmpl.
Qed.

(** ** Further runs in the concrete setting *)

Lemma set_cmap_empty_witness :
  Cifti.set_cmap (cmaps := Demo.cmaps) (plots := Demo.plots) (repr := Demo.repr)
    [] None None None Demo.cifti
  = (Raise ValueError, Demo.cifti).
Proof.
  apply (set_cmap_empty (cmaps := Demo.cmaps) (plots := Demo.plots)
           (repr := Demo.repr) None None "magma"); reflexivity.
Defined.

Lemma set_cmap_mappable_empty_witness :
  Cifti.set_cmap (cmaps := Demo.cmaps) (plots := Demo.plots) (repr := Demo.repr)
    [] None None (Some Demo.shade) Demo.cifti
  = (Raise IndexError, Demo.cifti).
Proof.
  apply (set_cmap_mappable_empty (cmaps := Demo.cmaps) (plots := Demo.plots)
           (repr := Demo.repr) None None "magma" None); reflexivity.
Defined.

Lemma set_cmap_mappable_overrides_witness :
  Cifti.set_cmap (cmaps := Demo.cmaps) (plots := Demo.plots) (repr := Demo.repr)
    Demo.data (Some "Greys") (Some (0%float, 1%float)) (Some Demo.shade) Demo.cifti
  = Cifti.set_cmap (cmaps := Demo.cmaps) (plots := Demo.plots) (repr := Demo.repr)
      Demo.data None None (Some Demo.shade) Demo.cifti ∧
  Cifti.vrange
    (snd (Cifti.set_cmap (cmaps := Demo.cmaps) (plots := Demo.plots)
            (repr := Demo.repr) Demo.data (Some "Greys")
            (Some (0%float, 1%float)) (Some Demo.shade) Demo.cifti))
  = Cifti.vrange Demo.cifti.
Proof.
  apply (set_cmap_mappable_overrides (cmaps := Demo.cmaps) (plots := Demo.plots)
           (repr := Demo.repr) Demo.data (Some "Greys") None
           (Some (0%float, 1%float)) None "Greys" "magma"
           (Some (0%float, 1%float)) None); reflexivity.
Defined.

Lemma set_cmap_long_table_witness :
  ∃ self' t',
    Cifti.set_cmap (cmaps := Demo.cmaps) (plots := Demo.plots) (repr := Demo.repr)
      [0.5%float] None None None Demo.cifti
    = (Raise IndexError, self') ∧
    Cifti.ischanged self' = false ∧
    ET.at_path (Cifti.extensions self') Cifti.label_table = Ok t' ∧
    ET.children t' !! 0 = Some (Demo.entry "0") ∧
    ET.children t' !! 1
    = Some (ET.Element "Label"
              {[ "Key" := "1"; "Red" := "0.0"; "Green" := "0.0"; "Blue" := "0.0";
                 "Alpha" := "1.0" ]} []) ∧
    ET.children t' !! 2 = Some (Demo.entry "2").
Proof.
  destruct (set_cmap_long_table (cmaps := Demo.cmaps) (plots := Demo.plots)
              (repr := Demo.repr) [0.5%float] None None None Demo.cifti
              "magma" None
              (Mpl.Floats [Mpl.Rgba 0%float 0%float 0%float 1%float])
              (Cifti.set_vrange (Some (0.5%float, 0.5%float)) Demo.cifti)
              Demo.table)
    as (self' & t' & Hrun & Hflag & Ht' & _ & Hzero & Hlater & Hpatched);
    [reflexivity | reflexivity | vm_compute; reflexivity | reflexivity
    | cbn; lia |].
  exists self', t'. do 3 (split; [done |]).
  split; [by rewrite Hzero |]. split; [| rewrite Hlater; [done | cbn; lia]].
  destruct (Hpatched 1) as (c & row & Hc & Hrow & ->); [cbn; lia |].
  injection Hc as <-. injection Hrow as <-. vm_compute. reflexivity.
Defined.

Lemma set_cmap_twice_witness :
  Cifti.set_cmap (cmaps := Demo.cmaps) (plots := Demo.plots) (repr := Demo.repr)
    Demo.data None None None Demo.cifti_after
  = (Ok (), Demo.cifti_after).
Proof.
  apply (set_cmap_twice (cmaps := Demo.cmaps) (plots := Demo.plots)
           (repr := Demo.repr) Demo.data None None None Demo.cifti).
  vm_compute. reflexivity.
Defined.

Lemma set_cmap_tree_frame_witness :
  ∃ table',
    ET.update_path (λ _, table') (Cifti.extensions Demo.cifti) Cifti.label_table
    = Ok (Cifti.extensions Demo.cifti_after) ∧
    ET.at_path (Cifti.extensions Demo.cifti_after) Cifti.label_table = Ok table'.
Proof.
  apply (set_cmap_tree_frame (cmaps := Demo.cmaps) (plots := Demo.plots)
           (repr := Demo.repr) Demo.data None None None Demo.cifti).
  vm_compute. reflexivity.
Defined.

Lemma colors_of_explicit_range_witness :
  Cifti.colors_of (cmaps := Demo.cmaps) Demo.data "magma"
    (Some (0%float, 1%float)) None Demo.cifti
  = (Ok (Mpl.Floats [Mpl.Rgba 0.2%float 0.2%float 0.2%float 1%float;
                     Mpl.Rgba 0.5%float 0.5%float 0.5%float 1%float]),
     Cifti.set_vrange (Some (0%float, 1%float)) Demo.cifti).
Proof.
  rewrite (colors_of_explicit_range (cmaps := Demo.cmaps) Demo.data "magma"
             "magma" 0%float 1%float Demo.cifti eq_refl eq_refl).
  reflexivity.
Defined.

Lemma set_cmap_inverted_range_witness :
  Cifti.set_cmap (cmaps := Demo.cmaps) (plots := Demo.plots) (repr := Demo.repr)
    Demo.data None (Some (1%float, 0%float)) None Demo.cifti
  = (Raise ValueError, Cifti.set_vrange (Some (1%float, 0%float)) Demo.cifti).
Proof.
  apply (set_cmap_inverted_range (cmaps := Demo.cmaps) (plots := Demo.plots)
           (repr := Demo.repr) Demo.data None "magma" "magma"); reflexivity.
Defined.

Lemma save_then_init_witness :
  Cifti.save (codec := Demo.codec) (dtype := Demo.dtype)
    Demo.cifti_after "/data/out.dlabel.nii" Demo.labels
  = Ok (fst Demo.colored, snd Demo.colored) ∧
  Demo.first_red (Cifti.extensions Demo.cifti_after) = "0.2" ∧
  Cifti.__init__ (codec := Demo.codec) (snd Demo.colored) "/data/out.dlabel.nii"
  = Ok Demo.cifti.
Proof.
  assert (Hrun :
    Cifti.save (codec := Demo.codec) (dtype := Demo.dtype)
      Demo.cifti_after "/data/out.dlabel.nii" Demo.labels
    = Ok (fst Demo.colored, snd Demo.colored)) by (vm_compute; reflexivity).
  split; [exact Hrun |]. split; [vm_compute; reflexivity |].
  rewrite (save_then_init (codec := Demo.codec) (dtype := Demo.dtype)
             Demo.cifti_after "/data/out.dlabel.nii" Demo.labels _ _
             (Nib.Extension "<CIFTI 1.0/>" None) Demo.tree Hrun);
    vm_compute; reflexivity.
Defined.

Lemma save_frame_witness :
  Cifti.save (codec := Demo.codec) (dtype := Demo.dtype)
    Demo.changed "/data/out.dlabel.nii" Demo.labels
  = Ok (fst Demo.saved, snd Demo.saved) ∧
  snd Demo.saved !! "/templates/parcels.dlabel.nii"
  = Demo.labels !! "/templates/parcels.dlabel.nii" ∧
  Cifti.ischanged (fst Demo.saved) = Cifti.ischanged Demo.changed.
Proof.
  assert (Hrun :
    Cifti.save (codec := Demo.codec) (dtype := Demo.dtype)
      Demo.changed "/data/out.dlabel.nii" Demo.labels
    = Ok (fst Demo.saved, snd Demo.saved)) by (vm_compute; reflexivity).
  split; [exact Hrun |].
  destruct (save_frame (codec := Demo.codec) (dtype := Demo.dtype) _ _ _ _ _ Hrun)
    as (Hfiles & _ & _ & _ & _ & _ & _ & _ & Hflag).
  split; [| exact Hflag]. apply Hfiles. discriminate.
Defined.

Lemma write_parcellated_image_output_witness :
  write_parcellated_image (cmaps := Demo.cmaps) (codec := Demo.codec)
    (plots := Demo.plots) (repr := Demo.repr) (dtype := Demo.dtype)
    (consts := Demo.consts)
    [5%float] "/data/out.dlabel.nii" (Some "left") None None Demo.labels
  = Ok Demo.labels_after ∧
  Demo.labels_after !! "/data/out.dlabel.nii" = Some Demo.dlabel ∧
  Demo.labels_after !! "/templates/parcels.dlabel.nii"
  = Demo.labels !! "/templates/parcels.dlabel.nii".
Proof.
  assert (Hrun :
    write_parcellated_image (cmaps := Demo.cmaps) (codec := Demo.codec)
      (plots := Demo.plots) (repr := Demo.repr) (dtype := Demo.dtype)
      (consts := Demo.consts)
      [5%float] "/data/out.dlabel.nii" (Some "left") None None Demo.labels
    = Ok Demo.labels_after) by (vm_compute; reflexivity).
  split; [exact Hrun |].
  destruct (write_parcellated_image_output (cmaps := Demo.cmaps)
              (codec := Demo.codec) (plots := Demo.plots) (repr := Demo.repr)
              (dtype := Demo.dtype) (consts := Demo.consts) _ _ _ _ _ _ _ Hrun)
    as (tmpl & Htmpl & _ & Hcopy & Hfiles).
  split; [| apply Hfiles; discriminate].
  assert (Some tmpl = Some Demo.dlabel) as [= ->]
    by (rewrite <- Htmpl; vm_compute; reflexivity).
  by apply Hcopy.
Defined.

Lemma write_dense_image_output_witness :
  ∃ w',
    write_dense_image (dtype := Demo.dtype) (consts := Demo.consts)
      Demo.dscalars "out" "/data" (Demo.store, Demo.files)
    = (Ok (), w') ∧
    snd w' !! "/templates/parcels.dlabel.nii"
    = Demo.files !! "/templates/parcels.dlabel.nii".
Proof.
  destruct (demo_dense_returns "out" "/data") as [w' Hrun].
  exists w'. split; [exact Hrun |].
  destruct (write_dense_image_output (dtype := Demo.dtype) (consts := Demo.consts)
              _ _ _ _ _ _ Hrun)
    as (buf & values & tmpl & _ & _ & _ & _ & Hfiles).
  apply Hfiles. discriminate.
Defined.

Lemma write_dense_image_raises_witness :
  write_dense_image (dtype := Demo.dtype) (consts := Demo.consts) (PyList [1%float]) "out" "/data"
    (∅, Demo.labels)
  = (Raise RuntimeError, (∅, Demo.labels)) ∧
  snd (∅ : Np.store, Demo.labels) = Demo.labels.
Proof.
  split; [reflexivity |].
  apply (write_dense_image_raises (dtype := Demo.dtype) (consts := Demo.consts) (PyList [1%float]) "out"
           "/data" ∅ Demo.labels RuntimeError (∅, Demo.labels)).
  reflexivity.
Defined.

Lemma write_dense_image_rejects_witness :
  write_dense_image (dtype := Demo.dtype) (consts := Demo.consts)
    (PyNdarray (Np.Ndarray [360%N] 1%positive)) "out" "/data"
    (Demo.store, Demo.files)
  = (Raise RuntimeError, (Demo.store, Demo.files)).
Proof.
  apply (write_dense_image_rejects (dtype := Demo.dtype) (consts := Demo.consts)). discriminate.
Defined.
